(** * Campus Canteen front end: the capture-and-submit controller

    A shallow embedding of [src/src/App.js].  The file holds two variants of
    the same React component [App]:

    - lines 1-313: the video and canvas elements are looked up with
      [document.getElementById], the camera is acquired in a [useEffect]
      that runs when [capturing] turns true (module [ById]);
    - lines 314-627: the elements are reached through [useRef], the media
      stream is a fifth piece of React state and the camera is acquired
      inside [startCamera] (module [ByRef]).

    Handlers are embedded as programs of a writer/exception monad: a handler
    never reads React state except through the values its closure captured
    at render time, and every state change is a call of a [useState] setter
    with a constant.  The denotation of a handler is therefore the ordered
    list of its setter calls and browser calls; the state after it is that
    list replayed on the state before, and the states in between that a
    render can see are those at the calls the handler is suspended on
    ([getUserMedia], [toBlob], [axios.post]).  What the browser and the
    backend answer (camera grant or refusal, the elements found, the
    encoded frame, the HTTP reply, the clock) is an explicit input of every
    handler, the same for the whole run of the handler and of the render
    that follows it.

    Where states are followed from click to click ([reachable]), a handler
    and the render after it have run to their end before the next click is
    taken. *)

From Stdlib Require Import String Ascii ZArith List Bool Lia.
From Stdlib Require Import DecimalString.
From Stdlib Require Import Floats.PrimFloat.
Import ListNotations.
Local Open Scope string_scope.
Local Open Scope list_scope.

Set Implicit Arguments.
Set Warnings "-register-all,-inexact-float".


(* ===================================================================== *)
(** ** JavaScript values, as far as the component touches them            *)
(* ===================================================================== *)

Module Js.

(** A value as it comes out of [JSON.parse] (plus [undefined], which a
    missing property reads as).  Numbers are IEEE doubles.  An object is
    its list of own properties, looked up first match first. *)
Inductive value : Type :=
| VUndefined
| VNull
| VBool (b : bool)
| VNum (x : float)
| VStr (s : string)
| VArr (elems : list value)
| VObj (fields : list (string * value)).

(** [ToBoolean]: what [if (v)], [!v], [v && ...] and [v || ...] test. *)
Definition truthy (v : value) : bool :=
  match v with
  | VUndefined | VNull => false
  | VBool b => b
  | VNum x => negb (PrimFloat.eqb x 0%float || PrimFloat.is_nan x)
  | VStr s => negb (String.eqb s "")
  | VArr _ | VObj _ => true
  end.

(** [a || b] *)
Definition or_else (a b : value) : value := if truthy a then a else b.

Fixpoint lookup (k : string) (fields : list (string * value)) : value :=
  match fields with
  | [] => VUndefined
  | (k', v) :: rest => if String.eqb k k' then v else lookup k rest
  end.

(** An [Error] object, with the one extra property axios adds when the
    server answered: [err.response]. *)
Record http_response : Type := { status : Z; data : value }.

Record js_error : Type := {
  message : string;
  response : option http_response
}.

Definition new_Error (msg : string) : js_error :=
  {| message := msg; response := None |}.

(** The [TypeError] of a property read on [null] or [undefined] (the text
    is the one V8 produces; nothing below depends on it beyond its being
    what [err.message] then holds). *)
Definition cannot_read (of_what : string) (k : string) : js_error :=
  new_Error ("Cannot read properties of " ++ of_what ++ " (reading '" ++ k ++ "')").

(** [v.k] for a data property [k].  None of the names the component reads
    ([success], [error], [items], [totals], [receipt_html], ...) is a
    built-in property of a string, number, boolean or array, so these read
    as [undefined]. *)
Definition prop (v : value) (k : string) : js_error + value :=
  match v with
  | VUndefined => inl (cannot_read "undefined" k)
  | VNull => inl (cannot_read "null" k)
  | VObj fields => inr (lookup k fields)
  | VBool _ | VNum _ | VStr _ | VArr _ => inr VUndefined
  end.

(** [v?.k] *)
Definition opt_prop (v : value) (k : string) : value :=
  match v with
  | VUndefined | VNull => VUndefined
  | VObj fields => lookup k fields
  | VBool _ | VNum _ | VStr _ | VArr _ => VUndefined
  end.

(** [err.message] and [err.response?.data?.error] as values. *)
Definition err_message (e : js_error) : value := VStr (message e).

Definition err_response_data_error (e : js_error) : value :=
  match response e with
  | None => VUndefined
  | Some r => opt_prop (data r) "error"
  end.

(** [`${n}`] for an integer-valued number. *)
Definition decimal (n : Z) : string := NilZero.string_of_int (Z.to_int n).

(** [ToString] of a value used as a [Blob] part or in a template literal,
    where it does not need the number-to-text algorithm. *)
Definition to_text (v : value) : option string :=
  match v with
  | VStr s => Some s
  | VUndefined => Some "undefined"
  | VNull => Some "null"
  | VBool true => Some "true"
  | VBool false => Some "false"
  | VNum _ | VArr _ | VObj _ => None
  end.

End Js.
Import Js.

(* ===================================================================== *)
(** ** The browser and the backend, as far as the component calls them    *)
(* ===================================================================== *)

Module Browser.

Definition track : Type := nat.

(** A [MediaStream]: the tracks [getTracks()] returns. *)
Record media_stream : Type := { tracks : list track }.

(** The argument of [getUserMedia]. *)
Record constraints : Type := {
  video_size : option (Z * Z);   (* [video: { width, height }], or [video: true] *)
  audio : option bool
}.

(** The binary [Blob] that [canvas.toBlob] hands over. *)
Record blob : Type := { bytes : string; mime : string }.

Definition size (b : blob) : nat := String.length (bytes b).

(** What [axios.post] settles to: fulfilled with the response (a 2xx
    status), or rejected with an error that carries the response when the
    server answered and none on a timeout or a network failure. *)
Inductive post_outcome : Type :=
| Fulfilled (r : http_response)
| Rejected (err : js_error).

(** Calls into the browser, in the order the handlers make them. *)
Inductive io : Type :=
| GetUserMedia (c : constraints)
| SetSrcObject (s : media_stream)
| VideoPlay
| TrackStop (t : track)
| CanvasSize (w h : Z)
| DrawImage (w h : Z)
| ToBlob (type : string) (quality : float)
| Post (url field filename : string) (body : blob) (content_type : string)
       (timeout : Z)
| CreateObjectURL (parts : list value) (type : string) (url : string)
| AppendChild
| AnchorClick (href download : string)
| RemoveChild
| RevokeObjectURL (url : string)
| ConsoleLog (label : string)
| ConsoleError (label : string).

(** The three calls a handler is suspended on until the browser answers. *)
Inductive pending : Type := Camera | Encoding | Upload.

Definition suspends (e : io) : option pending :=
  match e with
  | GetUserMedia _ => Some Camera
  | ToBlob _ _ => Some Encoding
  | Post _ _ _ _ _ _ => Some Upload
  | _ => None
  end.

Definition is_post (e : io) : bool :=
  match e with Post _ _ _ _ _ _ => true | _ => false end.

(** The files a sequence of browser calls saves: a click on an anchor with
    a [download] attribute saves the blob its [href] is registered for, as
    long as the object URL has not been revoked. *)
Record file : Type := {
  file_name : string;
  file_parts : list value;
  file_type : string
}.

Definition registry : Type := list (string * (list value * string)).

Fixpoint resolve (url : string) (reg : registry) : option (list value * string) :=
  match reg with
  | [] => None
  | (u, b) :: rest => if String.eqb url u then Some b else resolve url rest
  end.

Fixpoint revoke (url : string) (reg : registry) : registry :=
  match reg with
  | [] => []
  | (u, b) :: rest =>
      if String.eqb url u then revoke url rest else (u, b) :: revoke url rest
  end.

Fixpoint saved_from (reg : registry) (calls : list io) : list file :=
  match calls with
  | [] => []
  | CreateObjectURL parts type url :: rest =>
      saved_from ((url, (parts, type)) :: reg) rest
  | RevokeObjectURL url :: rest => saved_from (revoke url reg) rest
  | AnchorClick href download :: rest =>
      match resolve href reg with
      | Some (parts, type) =>
          {| file_name := download; file_parts := parts; file_type := type |}
          :: saved_from reg rest
      | None => saved_from reg rest
      end
  | _ :: rest => saved_from reg rest
  end.

Definition saved (calls : list io) : list file := saved_from [] calls.

(** The text of a blob built from parts, when every part has one. *)
Fixpoint text_of (parts : list value) : option string :=
  match parts with
  | [] => Some ""
  | p :: rest =>
      match to_text p, text_of rest with
      | Some s, Some t => Some (s ++ t)%string
      | _, _ => None
      end
  end.

End Browser.
Import Browser.

(* ===================================================================== *)
(** ** Handlers as programs: setter calls, browser calls, exceptions      *)
(* ===================================================================== *)

Module Prog.

Section WithSetters.

(** [U] is the type of setter calls of the component at hand. *)
Variable U : Type.

Inductive event : Type :=
| Upd (u : U)
| Io (e : io).

(** A program has run up to a [throw] or to its end; either way the events
    it emitted so far have happened. *)
Definition M (A : Type) : Type := list event * (js_error + A).

Definition ret {A} (a : A) : M A := ([], inr a).

Definition bind {A B} (m : M A) (k : A -> M B) : M B :=
  match m with
  | (t, inl e) => (t, inl e)
  | (t, inr a) => let (t', r) := k a in (t ++ t', r)
  end.

Definition throw {A} (e : js_error) : M A := ([], inl e).

Definition emit (ev : event) : M unit := ([ev], inr tt).

Definition set (u : U) : M unit := emit (Upd u).
Definition call (e : io) : M unit := emit (Io e).

(** [await p], [p] settled to [r] *)
Definition settle {A} (r : js_error + A) : M A := ([], r).

(** [try { body } catch (err) { handler err }] *)
Definition try_catch {A} (body : M A) (handler : js_error -> M A) : M A :=
  match body with
  | (t, inl e) => let (t', r) := handler e in (t ++ t', r)
  | (t, inr a) => (t, inr a)
  end.

(** [try { body } finally { cleanup }] *)
Definition try_finally {A} (body : M A) (cleanup : M unit) : M A :=
  match body, cleanup with
  | (t, r), (t', inl e') => (t ++ t', inl e')
  | (t, r), (t', inr _) => (t ++ t', r)
  end.

(** [xs.forEach(f)] *)
Fixpoint for_each {A} (f : A -> M unit) (xs : list A) : M unit :=
  match xs with
  | [] => ret tt
  | x :: rest => bind (f x) (fun _ => for_each f rest)
  end.

(** What [getTracks().forEach(track => track.stop())] amounts to: one call
    per track and nothing else. *)
Definition stops (l : list track) : list event :=
  map (fun t => Io (TrackStop t)) l.

Definition trace {A} (m : M A) : list event := fst m.

Definition updates (t : list event) : list U :=
  flat_map (fun ev => match ev with Upd u => [u] | Io _ => [] end) t.

Definition calls (t : list event) : list io :=
  flat_map (fun ev => match ev with Upd _ => [] | Io e => [e] end) t.

(** Replaying setter calls on a state. *)
Variable S : Type.
Variable apply : S -> U -> S.

Definition replay (s : S) (t : list event) : S :=
  fold_left apply (updates t) s.

(** The state the component is in each time the handler is suspended: the
    updates made before the suspending call, replayed. *)
Fixpoint suspended_in (s : S) (t : list event) : list (pending * S) :=
  match t with
  | [] => []
  | Upd u :: rest => suspended_in (apply s u) rest
  | Io e :: rest =>
      match suspends e with
      | Some p => (p, s) :: suspended_in s rest
      | None => suspended_in s rest
      end
  end.

End WithSetters.

Arguments Io {U} e.
Arguments ret {U A} a.
Arguments throw {U A} e.
Arguments call {U} e.
Arguments settle {U A} r.

End Prog.
Import Prog.

Declare Scope prog_scope.
Delimit Scope prog_scope with prog.
Notation "x <- c ;; k" := (bind c (fun x => k))
  (at level 61, c at next level, right associativity) : prog_scope.
Notation "c ;; k" := (bind c (fun _ => k))
  (at level 61, right associativity) : prog_scope.
Local Open Scope prog_scope.

(* ===================================================================== *)
(** ** What both variants share                                           *)
(* ===================================================================== *)

(** [const API_URL = process.env.REACT_APP_API_URL || '...'] (lines 5 and
    319); the argument is the build-time variable, [None] when unset. *)
Definition API_URL (REACT_APP_API_URL : option string) : string :=
  match REACT_APP_API_URL with
  | Some s =>
      if String.eqb s "" then "https://food-recognition-backend-rzsl.onrender.com"
      else s
  | None => "https://food-recognition-backend-rzsl.onrender.com"
  end.

(** The buttons of the JSX (lines 162-300 and 483-615). *)
Inductive button : Type :=
| StartCameraBtn      (* "Start Camera" *)
| CaptureBtn          (* "Take Photo & Analyze" *)
| CancelBtn           (* "Cancel" *)
| TryAgainBtn         (* "Try Again" *)
| DownloadBtn         (* "Download Receipt" *)
| NewScanBtn.         (* "New Scan" *)

(** [HTMLMediaElement.HAVE_CURRENT_DATA] and [HAVE_ENOUGH_DATA]: a video
    has buffered a frame from ready state 2 on. *)
Definition HAVE_CURRENT_DATA : Z := 2.
Definition HAVE_ENOUGH_DATA : Z := 4.

Definition camera_denied_msg : string :=
  "Failed to access camera. Please ensure camera permissions are granted.".

(* ===================================================================== *)
(** ** The variant of lines 314-627: refs and a [stream] state            *)
(* ===================================================================== *)

Module ByRef.

(** The five [useState] cells (lines 322-326). *)
Record state : Type := {
  stream : option media_stream;
  capturing : bool;
  analyzing : bool;
  result : value;
  error : value
}.

Definition initial : state :=
  {| stream := None; capturing := false; analyzing := false;
     result := VNull; error := VNull |}.

Inductive setter : Type :=
| SetStream (s : option media_stream)
| SetCapturing (b : bool)
| SetAnalyzing (b : bool)
| SetResult (v : value)
| SetError (v : value).

Definition apply (s : state) (u : setter) : state :=
  match u with
  | SetStream x =>
      {| stream := x; capturing := capturing s; analyzing := analyzing s;
         result := result s; error := error s |}
  | SetCapturing b =>
      {| stream := stream s; capturing := b; analyzing := analyzing s;
         result := result s; error := error s |}
  | SetAnalyzing b =>
      {| stream := stream s; capturing := capturing s; analyzing := b;
         result := result s; error := error s |}
  | SetResult v =>
      {| stream := stream s; capturing := capturing s; analyzing := analyzing s;
         result := v; error := error s |}
  | SetError v =>
      {| stream := stream s; capturing := capturing s; analyzing := analyzing s;
         result := result s; error := v |}
  end.

(** The video element behind [videoRef.current]. *)
Record video : Type := {
  readyState : Z;
  videoWidth : Z;
  videoHeight : Z
}.

(** What the surroundings answer during one handler. *)
Record world : Type := {
  REACT_APP_API_URL : option string;
  videoRef : option video;          (* [videoRef.current], [None] for null *)
  canvasRef : bool;                 (* [canvasRef.current] is not null *)
  mediaDevices : bool;              (* [navigator.mediaDevices] is defined *)
  camera : js_error + media_stream; (* how [getUserMedia] settles *)
  encoded : option blob;            (* what [toBlob] passes to its callback *)
  reply : post_outcome;             (* how [axios.post] settles *)
  now : Z;                          (* [Date.now()] *)
  object_url : string               (* what [URL.createObjectURL] returns *)
}.

Abbreviation prog := (M setter).

(** Lines 339-354. *)
Definition startCamera (w : world) : prog unit :=
  try_catch
    (set (SetError VNull) ;;
     (if mediaDevices w then ret tt
      else throw (cannot_read "undefined" "getUserMedia")) ;;
     call (GetUserMedia {| video_size := Some (1280, 720)%Z; audio := None |}) ;;
     mediaStream <- settle (camera w) ;;
     set (SetStream (Some mediaStream)) ;;
     match videoRef w with
     | Some _ => call (SetSrcObject mediaStream)
     | None => ret tt
     end ;;
     set (SetCapturing true))
    (fun err =>
       set (SetError (VStr camera_denied_msg)) ;;
       call (ConsoleError "Camera error:")).

(** Lines 356-362; [s] is the state the closure captured. *)
Definition stopCamera (s : state) : prog unit :=
  match stream s with
  | Some ms =>
      for_each (fun t => call (TrackStop t)) (tracks ms) ;;
      set (SetStream None)
  | None => ret tt
  end ;;
  set (SetCapturing false).

(** Lines 395-404: the promise around [canvas.toBlob]. *)
Definition toBlob_promise (w : world) : prog blob :=
  call (ToBlob "image/jpeg" 0.95%float) ;;
  match encoded w with
  | Some b =>
      if (0 <? size b)%nat then call (ConsoleLog "Photo captured:") ;; ret b
      else throw (new_Error "Failed to capture photo")
  | None => throw (new_Error "Failed to capture photo")
  end.

(** Lines 410-415. *)
Definition axios_post (w : world) (body : blob) : prog http_response :=
  call (Post (API_URL (REACT_APP_API_URL w) ++ "/analyze") "image" "capture.jpg"
             body "multipart/form-data" 30000) ;;
  settle (match reply w with
          | Fulfilled r => inr r
          | Rejected err => inl err
          end).

(** Lines 364-429. *)
Definition captureAndAnalyze (s : state) (w : world) : prog unit :=
  match videoRef w, canvasRef w with
  | Some video, true =>
      if negb (readyState video =? HAVE_ENOUGH_DATA)%Z then
        set (SetError (VStr "Video not ready. Please wait a moment."))
      else
        set (SetAnalyzing true) ;;
        set (SetError VNull) ;;
        set (SetResult VNull) ;;
        try_finally
          (try_catch
             (let width := videoWidth video in
              let height := videoHeight video in
              call (CanvasSize width height) ;;
              (if (width =? 0)%Z || (height =? 0)%Z
               then throw (new_Error "Invalid video dimensions")
               else ret tt) ;;
              call (DrawImage width height) ;;
              blob <- toBlob_promise w ;;
              response <- axios_post w blob ;;
              success <- settle (prop (data response) "success") ;;
              if truthy success then
                set (SetResult (data response)) ;;
                stopCamera s
              else
                set (SetError (VStr "Failed to analyze image")))
             (fun err =>
                set (SetError
                       (or_else (err_message err)
                          (or_else (err_response_data_error err)
                             (VStr "Failed to analyze. Please try again.")))) ;;
                call (ConsoleError "Analysis error:")))
          (set (SetAnalyzing false))
  | _, _ => set (SetError (VStr "Camera not ready"))
  end.

(** Lines 431-443. *)
Definition downloadReceipt (s : state) (w : world) : prog unit :=
  if negb (truthy (result s)) then ret tt
  else
    receipt_html <- settle (prop (result s) "receipt_html") ;;
    let url := object_url w in
    call (CreateObjectURL [receipt_html] "text/html" url) ;;
    call AppendChild ;;
    call (AnchorClick url ("receipt_" ++ decimal (now w) ++ ".html")) ;;
    call RemoveChild ;;
    call (RevokeObjectURL url).

(** Lines 445-448. *)
Definition reset : prog unit :=
  set (SetResult VNull) ;;
  set (SetError VNull).

(** Lines 331-337: the cleanup of the effect on [stream], run with the
    stream of the render that installed it. *)
Definition streamCleanup (old : option media_stream) : prog unit :=
  match old with
  | Some ms => for_each (fun t => call (TrackStop t)) (tracks ms)
  | None => ret tt
  end.

(** Which buttons the JSX renders (lines 483, 490, 532, 540) and which of
    them accept a click (lines 511 and 525: [disabled={analyzing}]). *)
Definition rendered (s : state) (b : button) : bool :=
  match b with
  | StartCameraBtn => negb (capturing s) && negb (truthy (result s))
  | CaptureBtn | CancelBtn => capturing s && negb (truthy (result s))
  | TryAgainBtn => truthy (error s)
  | DownloadBtn | NewScanBtn => truthy (result s)
  end.

Definition clickable (s : state) (b : button) : bool :=
  rendered s b &&
  match b with
  | CaptureBtn | CancelBtn => negb (analyzing s)
  | _ => true
  end.

(** The [onClick] of each button (lines 484, 510, 525, 536, 607, 611). *)
Definition onClick (s : state) (b : button) (w : world) : prog unit :=
  match b with
  | StartCameraBtn => startCamera w
  | CaptureBtn => captureAndAnalyze s w
  | CancelBtn => stopCamera s
  | TryAgainBtn => reset
  | DownloadBtn => downloadReceipt s w
  | NewScanBtn => reset ;; startCamera w
  end.

(** A handler run from state [s]: the state it leaves. *)
Definition after (s : state) (p : prog unit) : state :=
  replay apply s (trace p).

(** Two stream cells hold the same stream.  A stream is told apart by its
    tracks. *)
Definition same_stream (a b : option media_stream) : bool :=
  match a, b with
  | None, None => true
  | Some x, Some y =>
      if list_eq_dec Nat.eq_dec (tracks x) (tracks y) then true else false
  | _, _ => false
  end.

(** The render that follows a handler: when [stream] changed, the cleanup
    installed for the old stream runs (line 337: [[stream]]). *)
Definition rerender (before now : state) : prog unit :=
  if same_stream (stream before) (stream now) then ret tt
  else streamCleanup (stream before).

(** Everything a click sets off: the handler and the render after it. *)
Definition episode (s : state) (b : button) (w : world) : list (event setter) :=
  let t1 := trace (onClick s b w) in
  let s1 := replay apply s t1 in
  t1 ++ trace (rerender s s1).

Definition click (s : state) (b : button) (w : world) : state :=
  replay apply s (episode s b w).

(** The states the component goes through when handlers run one after
    another: between handlers ([None]) and while one is suspended on a
    browser call. *)
Inductive reachable : option pending -> state -> Prop :=
| reach_initial : reachable None initial
| reach_click s b w :
    reachable None s -> clickable s b = true ->
    reachable None (click s b w)
| reach_suspended s b w p s' :
    reachable None s -> clickable s b = true ->
    In (p, s') (suspended_in apply s (episode s b w)) ->
    reachable (Some p) s'.

End ByRef.

(* ===================================================================== *)
(** ** The variant of lines 1-313: element ids and a camera effect        *)
(* ===================================================================== *)

Module ById.

(** The four [useState] cells (lines 8-11). *)
Record state : Type := {
  capturing : bool;
  analyzing : bool;
  result : value;
  error : value
}.

Definition initial : state :=
  {| capturing := false; analyzing := false; result := VNull; error := VNull |}.

Inductive setter : Type :=
| SetCapturing (b : bool)
| SetAnalyzing (b : bool)
| SetResult (v : value)
| SetError (v : value).

Definition apply (s : state) (u : setter) : state :=
  match u with
  | SetCapturing b =>
      {| capturing := b; analyzing := analyzing s;
         result := result s; error := error s |}
  | SetAnalyzing b =>
      {| capturing := capturing s; analyzing := b;
         result := result s; error := error s |}
  | SetResult v =>
      {| capturing := capturing s; analyzing := analyzing s;
         result := v; error := error s |}
  | SetError v =>
      {| capturing := capturing s; analyzing := analyzing s;
         result := result s; error := v |}
  end.

(** The element [document.getElementById('video')] finds.  The handlers
    never read [readyState]; it is there to say what the browser has
    buffered. *)
Record video_element : Type := {
  srcObject : option media_stream;
  readyState : Z;
  videoWidth : Z;
  videoHeight : Z
}.

(** What the surroundings answer during one handler and the render that
    follows it. *)
Record world : Type := {
  REACT_APP_API_URL : option string;
  video : option video_element;     (* [getElementById('video')] *)
  canvas : bool;                    (* [getElementById('canvas')] is not null *)
  mediaDevices : bool;              (* [navigator.mediaDevices] is defined *)
  camera : js_error + media_stream; (* how [getUserMedia] settles *)
  encoded : option blob;            (* what [toBlob] passes to its callback *)
  reply : post_outcome;             (* how [axios.post] settles *)
  now : Z;                          (* [Date.now()] *)
  object_url : string               (* what [URL.createObjectURL] returns *)
}.

Abbreviation prog := (M setter).

(** Lines 13-36, the body of the effect on [capturing]: the request, and
    the [.then(...).catch(...)] chain on its promise. *)
Definition cameraEffect (capturing_now : bool) (w : world) : prog unit :=
  if capturing_now then
    (if mediaDevices w then ret tt
     else throw (cannot_read "undefined" "getUserMedia")) ;;
    call (GetUserMedia {| video_size := None; audio := Some false |}) ;;
    try_catch
      (stream <- settle (camera w) ;;
       match video w with
       | Some _ => call (SetSrcObject stream) ;; call VideoPlay
       | None => throw (new_Error "Cannot set properties of null (setting 'srcObject')")
       end)
      (fun err =>
         call (ConsoleError "Camera error:") ;;
         set (SetError (VStr camera_denied_msg)) ;;
         set (SetCapturing false))
  else ret tt.

(** Lines 30-34, the cleanup the effect returns when [capturing] was true;
    [video] is the element the effect looked up. *)
Definition cameraCleanup (w : world) : prog unit :=
  match video w with
  | Some v =>
      match srcObject v with
      | Some ms => for_each (fun t => call (TrackStop t)) (tracks ms)
      | None => ret tt
      end
  | None => throw (cannot_read "null" "srcObject")
  end.

(** Lines 38-41. *)
Definition startCamera : prog unit :=
  set (SetError VNull) ;;
  set (SetCapturing true).

(** Lines 43-49. *)
Definition stopCamera (w : world) : prog unit :=
  match video w with
  | Some v =>
      match srcObject v with
      | Some ms => for_each (fun t => call (TrackStop t)) (tracks ms)
      | None => ret tt
      end
  | None => ret tt
  end ;;
  set (SetCapturing false).

(** Lines 83-88. *)
Definition axios_post (w : world) (body : blob) : prog http_response :=
  call (Post (API_URL (REACT_APP_API_URL w) ++ "/analyze") "image" "capture.jpg"
             body "multipart/form-data" 30000) ;;
  settle (match reply w with
          | Fulfilled r => inr r
          | Rejected err => inl err
          end).

(** Lines 69-102: the callback given to [canvas.toBlob]. *)
Definition onBlob (w : world) : prog unit :=
  let failed :=
    set (SetError (VStr "Failed to capture photo")) ;;
    set (SetAnalyzing false) in
  match encoded w with
  | None => failed
  | Some blob =>
      if (size blob =? 0)%nat then failed
      else
        call (ConsoleLog "Photo captured:") ;;
        try_finally
          (try_catch
             (response <- axios_post w blob ;;
              success <- settle (prop (data response) "success") ;;
              if truthy success then
                set (SetResult (data response)) ;;
                stopCamera w
              else
                set (SetError (VStr "Failed to analyze image")))
             (fun err =>
                set (SetError
                       (or_else (err_response_data_error err)
                          (VStr "Failed to analyze. Please try again."))) ;;
                call (ConsoleError "Analysis error:")))
          (set (SetAnalyzing false))
  end.

(** Lines 51-108.  The callback runs after the [try] block has been left,
    so it is sequenced after it, outside the reach of its [catch]. *)
Definition captureAndAnalyze (w : world) : prog unit :=
  (if canvas w then ret tt else throw (cannot_read "null" "getContext")) ;;
  set (SetAnalyzing true) ;;
  set (SetError VNull) ;;
  set (SetResult VNull) ;;
  handed_over <-
    try_catch
      (v <- settle (match video w with
                    | Some v => inr v
                    | None => inl (cannot_read "null" "videoWidth")
                    end) ;;
       call (CanvasSize (videoWidth v) (videoHeight v)) ;;
       call (DrawImage (videoWidth v) (videoHeight v)) ;;
       call (ToBlob "image/jpeg" 0.95%float) ;;
       ret true)
      (fun err =>
         set (SetError (or_else (err_message err) (VStr "Failed to capture photo"))) ;;
         set (SetAnalyzing false) ;;
         ret false) ;;
  if handed_over then onBlob w else ret tt.

(** Lines 110-122. *)
Definition downloadReceipt (s : state) (w : world) : prog unit :=
  if negb (truthy (result s)) then ret tt
  else
    receipt_html <- settle (prop (result s) "receipt_html") ;;
    let url := object_url w in
    call (CreateObjectURL [receipt_html] "text/html" url) ;;
    call AppendChild ;;
    call (AnchorClick url ("receipt_" ++ decimal (now w) ++ ".html")) ;;
    call RemoveChild ;;
    call (RevokeObjectURL url).

(** Lines 124-127. *)
Definition reset : prog unit :=
  set (SetResult VNull) ;;
  set (SetError VNull).

(** Which buttons the JSX renders (lines 162, 169, 217, 225) and which of
    them accept a click (lines 196 and 210: [disabled={analyzing}]). *)
Definition rendered (s : state) (b : button) : bool :=
  match b with
  | StartCameraBtn => negb (capturing s) && negb (truthy (result s))
  | CaptureBtn | CancelBtn => capturing s && negb (truthy (result s))
  | TryAgainBtn => truthy (error s)
  | DownloadBtn | NewScanBtn => truthy (result s)
  end.

Definition clickable (s : state) (b : button) : bool :=
  rendered s b &&
  match b with
  | CaptureBtn | CancelBtn => negb (analyzing s)
  | _ => true
  end.

(** The [onClick] of each button (lines 163, 195, 210, 221, 292, 296). *)
Definition onClick (s : state) (b : button) (w : world) : prog unit :=
  match b with
  | StartCameraBtn => startCamera
  | CaptureBtn => captureAndAnalyze w
  | CancelBtn => stopCamera w
  | TryAgainBtn => reset
  | DownloadBtn => downloadReceipt s w
  | NewScanBtn => reset ;; startCamera
  end.

Definition after (s : state) (p : prog unit) : state :=
  replay apply s (trace p).

(** The render that follows a handler: when [capturing] changed, the old
    cleanup runs (if the last effect returned one) and the effect runs
    again (line 36: [[capturing]]). *)
Definition rerender (before now : state) (w : world) : prog unit :=
  if Bool.eqb (capturing before) (capturing now) then ret tt
  else
    (if capturing before then cameraCleanup w else ret tt) ;;
    cameraEffect (capturing now) w.

(** Everything a click sets off: the handler, the render after it, and the
    render after the effect has changed the state in its turn. *)
Definition episode (s : state) (b : button) (w : world) : list (event setter) :=
  let t1 := trace (onClick s b w) in
  let s1 := replay apply s t1 in
  let t2 := trace (rerender s s1 w) in
  let s2 := replay apply s1 t2 in
  let t3 := trace (rerender s1 s2 w) in
  t1 ++ t2 ++ t3.

Definition click (s : state) (b : button) (w : world) : state :=
  replay apply s (episode s b w).

(** "Start capture" on its own: [startCamera] and the effect it triggers. *)
Definition startCapture (s : state) (w : world) : list (event setter) :=
  episode s StartCameraBtn w.

(** The states the component goes through when handlers run one after
    another: between handlers ([None]) and while one is suspended on a
    browser call. *)
Inductive reachable : option pending -> state -> Prop :=
| reach_initial : reachable None initial
| reach_click s b w :
    reachable None s -> clickable s b = true ->
    reachable None (click s b w)
| reach_suspended s b w p s' :
    reachable None s -> clickable s b = true ->
    In (p, s') (suspended_in apply s (episode s b w)) ->
    reachable (Some p) s'.

End ById.

(* ===================================================================== *)
(** ** The results section of the view                                    *)
(* ===================================================================== *)

Module View.

(** One [item-card] (lines 233-262 and 548-577): the children React is
    given, as they are read from the item. *)
Record item_card : Type := {
  card_name : value;
  card_confidence : value;
  card_price : value;
  card_calories : value;
  card_protein : value;
  card_carbs : value;
  card_fat : value
}.

(** The [totals-card] (lines 265-289 and 580-604). *)
Record totals_card : Type := {
  shown_price : value;
  shown_calories : value;
  shown_protein : value;
  shown_carbs : value;
  shown_fat : value
}.

Record results : Type := {
  shown_timestamp : value;
  cards : list item_card;
  totals : totals_card
}.

Definition and_then {A B} (r : js_error + A) (k : A -> js_error + B) : js_error + B :=
  match r with
  | inl e => inl e
  | inr a => k a
  end.

Definition item_card_of (item : value) : js_error + item_card :=
  and_then (prop item "name") (fun name =>
  and_then (prop item "confidence") (fun confidence =>
  and_then (prop item "price") (fun price =>
  and_then (prop item "calories") (fun calories =>
  and_then (prop item "protein") (fun protein =>
  and_then (prop item "carbs") (fun carbs =>
  and_then (prop item "fat") (fun fat =>
  inr {| card_name := name; card_confidence := confidence; card_price := price;
         card_calories := calories; card_protein := protein;
         card_carbs := carbs; card_fat := fat |}))))))).

(** [items.map(f)] *)
Fixpoint map_items (f : value -> js_error + item_card) (items : list value)
  : js_error + list item_card :=
  match items with
  | [] => inr []
  | item :: rest =>
      and_then (f item) (fun c =>
      and_then (map_items f rest) (fun cs => inr (c :: cs)))
  end.

(** [{result && ( ... )}], for a [result] that is truthy: what is put on
    screen, or the exception rendering dies of. *)
Definition results_section (result : value) : js_error + results :=
  and_then (prop result "timestamp") (fun timestamp =>
  and_then (prop result "items") (fun items =>
  and_then
    (match items with
     | VArr elems => map_items item_card_of elems
     | VUndefined => inl (cannot_read "undefined" "map")
     | VNull => inl (cannot_read "null" "map")
     | VBool _ | VNum _ | VStr _ | VObj _ =>
         inl (new_Error "result.items.map is not a function")
     end) (fun cards =>
  and_then (prop result "totals") (fun totals =>
  and_then (prop totals "total_price") (fun price =>
  and_then (prop totals "total_calories") (fun calories =>
  and_then (prop totals "total_protein") (fun protein =>
  and_then (prop totals "total_carbs") (fun carbs =>
  and_then (prop totals "total_fat") (fun fat =>
  inr {| shown_timestamp := timestamp; cards := cards;
         totals := {| shown_price := price; shown_calories := calories;
                      shown_protein := protein; shown_carbs := carbs;
                      shown_fat := fat |} |}))))))))).

End View.
Import View.

(* ===================================================================== *)
(** ** Predicates on inputs and traces                                    *)
(* ===================================================================== *)

(** A response body of the shape the view and [downloadReceipt] read: an
    object whose [success] is [true], whose [items] is an array of
    objects, whose [totals] is an object and whose [timestamp] and
    [receipt_html] are strings. *)
Definition is_object (v : value) : bool :=
  match v with VObj _ => true | _ => false end.

Definition is_string (v : value) : bool :=
  match v with VStr _ => true | _ => false end.

Definition well_formed (d : value) : bool :=
  match d with
  | VObj fields =>
      match lookup "success" fields, lookup "items" fields with
      | VBool true, VArr items =>
          forallb is_object items
          && is_object (lookup "totals" fields)
          && is_string (lookup "timestamp" fields)
          && is_string (lookup "receipt_html" fields)
      | _, _ => false
      end
  | _ => false
  end.

(** [response.data.success] is read and is truthy. *)
Definition succeeded (d : value) : bool :=
  match prop d "success" with
  | inr v => truthy v
  | inl _ => false
  end.


(** The video element is there and has buffered a frame. *)
Definition ref_has_frame (w : ByRef.world) : bool :=
  match ByRef.videoRef w with
  | Some v => (HAVE_CURRENT_DATA <=? ByRef.readyState v)%Z
  | None => false
  end.

Definition id_has_frame (w : ById.world) : bool :=
  match ById.video w with
  | Some v => (HAVE_CURRENT_DATA <=? ById.readyState v)%Z
  | None => false
  end.

(** The ref variant gets past its two guards (lines 365 and 373). *)
Definition ref_ready (w : ByRef.world) : bool :=
  match ByRef.videoRef w with
  | Some v => ByRef.canvasRef w && (ByRef.readyState v =? HAVE_ENOUGH_DATA)%Z
  | None => false
  end.

(** [getUserMedia] cannot be called, or its promise is rejected. *)
Definition refused (available : bool) (c : js_error + media_stream) : bool :=
  negb available || match c with inl _ => true | inr _ => false end.

(** A request went out. *)
Definition posts {U} (t : list (event U)) : bool :=
  existsb is_post (calls t).

(** The encoder was called. *)
Definition encodes {U} (t : list (event U)) : bool :=
  existsb (fun e => match e with ToBlob _ _ => true | _ => false end) (calls t).

(** [needle] occurs in [hay]. *)
Fixpoint mentions (needle hay : string) : bool :=
  if String.prefix needle hay then true
  else match hay with
       | EmptyString => false
       | String _ rest => mentions needle rest
       end.

(** A displayed error that is a non-empty string. *)
Definition is_message (v : value) : bool :=
  match v with
  | VStr s => negb (String.eqb s "")
  | _ => false
  end.

(** An encoded frame that is null or has no bytes. *)
Definition empty_frame (b : option blob) : bool :=
  match b with
  | None => true
  | Some b => (size b =? 0)%nat
  end.

(** A rejection with no response behind it: a timeout or a network
    failure. *)
Definition no_answer (o : post_outcome) : bool :=
  match o with
  | Rejected err => match response err with None => true | Some _ => false end
  | Fulfilled _ => false
  end.

(** A fulfilled request whose body does not say success. *)
Definition says_failure (o : post_outcome) : bool :=
  match o with
  | Fulfilled r => negb (succeeded (data r))
  | Rejected _ => false
  end.




(* ===================================================================== *)
(** ** More to say about values, calls and states                         *)
(* ===================================================================== *)

(** [null] or [undefined]: the values a property read throws on. *)
Definition is_nullish (v : value) : bool :=
  match v with
  | VUndefined | VNull => true
  | _ => false
  end.

(** What the results section needs of [result] in order to render: the
    value itself is there, [items] is an array with no hole in it, and
    [totals] is there. *)
Definition renderable (d : value) : bool :=
  negb (is_nullish d)
  && match opt_prop d "items" with
     | VArr elems => forallb (fun item => negb (is_nullish item)) elems
     | _ => false
     end
  && negb (is_nullish (opt_prop d "totals")).

(** The object URLs a sequence of browser calls leaves registered. *)
Fixpoint registered_after (reg : registry) (calls : list io) : registry :=
  match calls with
  | [] => reg
  | CreateObjectURL parts type url :: rest =>
      registered_after ((url, (parts, type)) :: reg) rest
  | RevokeObjectURL url :: rest => registered_after (revoke url reg) rest
  | _ :: rest => registered_after reg rest
  end.

(** The requests among the calls. *)
Definition requests {U} (t : list (event U)) : list io :=
  filter is_post (calls t).

(** The camera was asked for. *)
Definition asks_camera {U} (t : list (event U)) : bool :=
  existsb (fun e => match e with GetUserMedia _ => true | _ => false end)
          (calls t).

(** The tracks a sequence of calls stops. *)
Definition stopped {U} (t : list (event U)) : list track :=
  flat_map (fun e => match e with TrackStop k => [k] | _ => [] end) (calls t).

(** The [stream] cell of the ref variant is filled exactly in capture
    mode. *)
Definition stream_held (s : ByRef.state) : bool :=
  match ByRef.stream s with
  | Some _ => true
  | None => false
  end.

(** The values a state may hold in [result] and [error]: [result] is null
    or a body that says success, [error] is null or truthy. *)
Definition ref_values_ok (s : ByRef.state) : Prop :=
  (ByRef.result s = VNull \/ succeeded (ByRef.result s) = true) /\
  (ByRef.error s = VNull \/ truthy (ByRef.error s) = true).


(* ===================================================================== *)
(** ** Concrete inputs, for running the handlers                          *)
(* ===================================================================== *)

Module Sample.

Definition burek : value :=
  VObj [("name", VStr "Burek"); ("confidence", VNum 93.5%float);
        ("price", VNum 120%float); ("calories", VNum 450%float);
        ("protein", VNum 12%float); ("carbs", VNum 40%float);
        ("fat", VNum 25%float)].

Definition yogurt : value :=
  VObj [("name", VStr "Yogurt"); ("confidence", VNum 88%float);
        ("price", VNum 40%float); ("calories", VNum 90%float);
        ("protein", VNum 5%float); ("carbs", VNum 7%float);
        ("fat", VNum 3%float)].

Definition receipt : string := "<html><body><h1>Receipt</h1></body></html>".

(** A body as the backend sends it after a successful analysis. *)
Definition analysis : value :=
  VObj [("success", VBool true);
        ("items", VArr [burek; yogurt]);
        ("totals", VObj [("total_price", VNum 160%float);
                         ("total_calories", VNum 540%float);
                         ("total_protein", VNum 17%float);
                         ("total_carbs", VNum 47%float);
                         ("total_fat", VNum 28%float)]);
        ("timestamp", VStr "2024-01-15 12:30:00");
        ("receipt_html", VStr receipt)].

(** A body that reports a failure and says why. *)
Definition refusal : value :=
  VObj [("success", VBool false); ("error", VStr "No food detected")].

Definition ok : post_outcome := Fulfilled {| status := 200; data := analysis |}.

Definition not_ok : post_outcome := Fulfilled {| status := 200; data := refusal |}.

(** What axios rejects with when the server answers 500 with a message. *)
Definition server_error : post_outcome :=
  Rejected {| message := "Request failed with status code 500";
              response := Some {| status := 500;
                                  data := VObj [("error", VStr "Model unavailable")] |} |}.

(** What axios rejects with when the 30 seconds are over. *)
Definition timed_out : post_outcome :=
  Rejected {| message := "timeout of 30000ms exceeded"; response := None |}.

Definition jpeg : blob := {| bytes := "JFIF-frame"; mime := "image/jpeg" |}.

Definition webcam : media_stream := {| tracks := [0%nat] |}.

Definition denied : js_error := new_Error "Permission denied".

(** The ref variant: a playing video of 1280 by 720, and a video that has
    buffered nothing yet. *)
Definition playing : ByRef.video :=
  {| ByRef.readyState := 4; ByRef.videoWidth := 1280; ByRef.videoHeight := 720 |}.

Definition blank : ByRef.video :=
  {| ByRef.readyState := 0; ByRef.videoWidth := 0; ByRef.videoHeight := 0 |}.

Definition ref_world (v : option ByRef.video) (cam : js_error + media_stream)
    (frame : option blob) (o : post_outcome) : ByRef.world :=
  {| ByRef.REACT_APP_API_URL := None;
     ByRef.videoRef := v; ByRef.canvasRef := true; ByRef.mediaDevices := true;
     ByRef.camera := cam; ByRef.encoded := frame; ByRef.reply := o;
     ByRef.now := 1705321800000; ByRef.object_url := "blob:receipt" |}.

(** The ref variant in capture mode, and showing [analysis]. *)
Definition ref_capturing : ByRef.state :=
  {| ByRef.stream := Some webcam; ByRef.capturing := true;
     ByRef.analyzing := false; ByRef.result := VNull; ByRef.error := VNull |}.

Definition ref_showing : ByRef.state :=
  {| ByRef.stream := None; ByRef.capturing := false;
     ByRef.analyzing := false; ByRef.result := analysis; ByRef.error := VNull |}.

(** The id variant: the same, with the stream on the video element. *)
Definition id_playing : ById.video_element :=
  {| ById.srcObject := Some webcam; ById.readyState := 4;
     ById.videoWidth := 1280; ById.videoHeight := 720 |}.

Definition id_blank : ById.video_element :=
  {| ById.srcObject := None; ById.readyState := 0;
     ById.videoWidth := 0; ById.videoHeight := 0 |}.

Definition id_world (v : option ById.video_element) (cam : js_error + media_stream)
    (frame : option blob) (o : post_outcome) : ById.world :=
  {| ById.REACT_APP_API_URL := None;
     ById.video := v; ById.canvas := true; ById.mediaDevices := true;
     ById.camera := cam; ById.encoded := frame; ById.reply := o;
     ById.now := 1705321800000; ById.object_url := "blob:receipt" |}.

Definition id_capturing : ById.state :=
  {| ById.capturing := true; ById.analyzing := false;
     ById.result := VNull; ById.error := VNull |}.

Definition id_showing : ById.state :=
  {| ById.capturing := false; ById.analyzing := false;
     ById.result := analysis; ById.error := VNull |}.

End Sample.

(* ===================================================================== *)
(** * Facts                                                               *)
(* ===================================================================== *)

(** ** Traces *)

Section TraceFacts.

Variables (U S : Type) (apply : S -> U -> S).

Lemma updates_app (t1 t2 : list (event U)) :
  updates (t1 ++ t2) = updates t1 ++ updates t2.
Proof. unfold updates. apply flat_map_app. Qed.

Lemma calls_app (t1 t2 : list (event U)) :
  calls (t1 ++ t2) = calls t1 ++ calls t2.
Proof. unfold calls. apply flat_map_app. Qed.

Lemma replay_app (s : S) (t1 t2 : list (event U)) :
  replay apply s (t1 ++ t2) = replay apply (replay apply s t1) t2.
Proof. unfold replay. rewrite updates_app. apply fold_left_app. Qed.

Lemma suspended_in_app (t1 t2 : list (event U)) : forall s,
  suspended_in apply s (t1 ++ t2)
  = suspended_in apply s t1 ++ suspended_in apply (replay apply s t1) t2.
Proof.
  induction t1 as [|ev t1 IH]; intros s; [reflexivity|].
  destruct ev as [u|e]; cbn [app suspended_in].
  - rewrite IH. reflexivity.
  - destruct (suspends e); rewrite IH; reflexivity.
Qed.

Lemma replay_nil (s : S) : replay apply s (@nil (event U)) = s.
Proof. reflexivity. Qed.

Lemma updates_nil : updates (@nil (event U)) = [].
Proof. reflexivity. Qed.

Lemma calls_nil : calls (@nil (event U)) = [].
Proof. reflexivity. Qed.

Lemma posts_nil : posts (@nil (event U)) = false.
Proof. reflexivity. Qed.

Lemma encodes_nil : encodes (@nil (event U)) = false.
Proof. reflexivity. Qed.

Lemma replay_Upd (s : S) (u : U) (t : list (event U)) :
  replay apply s (Upd u :: t) = replay apply (apply s u) t.
Proof. reflexivity. Qed.

Lemma replay_Io (s : S) (e : io) (t : list (event U)) :
  replay apply s (Io e :: t) = replay apply s t.
Proof. reflexivity. Qed.

Lemma posts_Upd (u : U) (t : list (event U)) : posts (Upd u :: t) = posts t.
Proof. reflexivity. Qed.

Lemma posts_Io (e : io) (t : list (event U)) :
  posts (Io e :: t) = is_post e || posts t.
Proof. reflexivity. Qed.

Lemma encodes_Upd (u : U) (t : list (event U)) : encodes (Upd u :: t) = encodes t.
Proof. reflexivity. Qed.

Lemma encodes_Io (e : io) (t : list (event U)) :
  encodes (Io e :: t) =
  match e with ToBlob _ _ => true | _ => false end || encodes t.
Proof. reflexivity. Qed.

Lemma updates_Upd (u : U) (t : list (event U)) :
  updates (Upd u :: t) = u :: updates t.
Proof. reflexivity. Qed.

Lemma updates_Io (e : io) (t : list (event U)) :
  updates (Io e :: t) = updates t.
Proof. reflexivity. Qed.

Lemma calls_Upd (u : U) (t : list (event U)) : calls (Upd u :: t) = calls t.
Proof. reflexivity. Qed.

Lemma calls_Io (e : io) (t : list (event U)) :
  calls (Io e :: t) = e :: calls t.
Proof. reflexivity. Qed.

Lemma posts_app (t1 t2 : list (event U)) :
  posts (t1 ++ t2) = posts t1 || posts t2.
Proof. unfold posts. rewrite calls_app. apply existsb_app. Qed.

Lemma encodes_app (t1 t2 : list (event U)) :
  encodes (t1 ++ t2) = encodes t1 || encodes t2.
Proof. unfold encodes. rewrite calls_app. apply existsb_app. Qed.

Lemma for_each_stop (l : list track) :
  for_each (fun t => @call U (TrackStop t)) l = (stops U l, inr tt).
Proof.
  induction l as [|t l IH]; [reflexivity|].
  cbn [for_each]. rewrite IH. reflexivity.
Qed.

Lemma updates_stops l : updates (stops U l) = [].
Proof. induction l; [reflexivity | assumption]. Qed.

Lemma calls_stops l : calls (stops U l) = map TrackStop l.
Proof. induction l as [|t l IH]; [reflexivity|]. cbn. f_equal. exact IH. Qed.

Lemma replay_stops s l : replay apply s (stops U l) = s.
Proof. unfold replay. rewrite updates_stops. reflexivity. Qed.

Lemma suspended_in_stops s l : suspended_in apply s (stops U l) = [].
Proof. induction l; [reflexivity | assumption]. Qed.

Lemma posts_stops l : posts (stops U l) = false.
Proof. induction l; [reflexivity | assumption]. Qed.

Lemma encodes_stops l : encodes (stops U l) = false.
Proof. induction l; [reflexivity | assumption]. Qed.

End TraceFacts.

Create Rewrite HintDb trace.

#[global] Hint Rewrite updates_nil calls_nil posts_nil encodes_nil app_nil_r
  replay_nil replay_Upd replay_Io replay_app replay_stops
  suspended_in_app suspended_in_stops
  posts_Upd posts_Io posts_app posts_stops
  encodes_Upd encodes_Io encodes_app encodes_stops
  updates_Upd updates_Io updates_app updates_stops
  calls_Upd calls_Io calls_app calls_stops : trace.

(** Running a handler symbolically: compute as far as the tests allow,
    split on the first test that is stuck, and go on. *)
Ltac split_on_test :=
  match goal with
  | |- context [match ?x with _ => _ end] =>
      lazymatch x with
      | context [match _ with _ => _ end] => fail
      | _ => destruct x eqn:?
      end
  end.

Ltac compute_trace :=
  cbn -[truthy prop opt_prop or_else String.append API_URL stops replay
        posts encodes updates calls mentions] in *.

Ltac run := repeat (compute_trace; try discriminate; try split_on_test).

Ltac replayed :=
  repeat (autorewrite with trace; compute_trace).

(** ** The handlers that stop the tracks, in closed form *)

Lemma byref_stopCamera_eq (s : ByRef.state) :
  ByRef.stopCamera s =
  (match ByRef.stream s with
   | Some ms => stops _ (tracks ms) ++ [Upd (ByRef.SetStream None)]
   | None => []
   end ++ [Upd (ByRef.SetCapturing false)], inr tt).
Proof.
  unfold ByRef.stopCamera. destruct (ByRef.stream s) as [ms|]; [|reflexivity].
  rewrite for_each_stop. cbn. rewrite <- app_assoc. reflexivity.
Qed.

Lemma byid_stopCamera_eq (w : ById.world) :
  ById.stopCamera w =
  (match ById.video w with
   | Some v => match ById.srcObject v with
               | Some ms => stops _ (tracks ms)
               | None => []
               end
   | None => []
   end ++ [Upd (ById.SetCapturing false)], inr tt).
Proof.
  unfold ById.stopCamera. destruct (ById.video w) as [v|]; [|reflexivity].
  destruct (ById.srcObject v) as [ms|]; [|reflexivity].
  rewrite for_each_stop. reflexivity.
Qed.

(** ** Capture and analyze *)

Ltac open_capture :=
  unfold ByRef.after, ById.after, ByRef.captureAndAnalyze, ById.captureAndAnalyze,
    ById.onBlob, ByRef.toBlob_promise, ByRef.axios_post, ById.axios_post,
    says_failure, no_answer, succeeded, empty_frame in *;
  rewrite ?byref_stopCamera_eq, ?byid_stopCamera_eq in *.

Lemma byref_success (s : ByRef.state) (w : ByRef.world) (r : http_response) :
  succeeded (data r) = true ->
  ByRef.reply w = Fulfilled r ->
  posts (trace (ByRef.captureAndAnalyze s w)) = true ->
  let t := trace (ByRef.captureAndAnalyze s w) in
  let s' := ByRef.after s (ByRef.captureAndAnalyze s w) in
  ByRef.result s' = data r /\ ByRef.capturing s' = false /\
  ByRef.stream s' = None /\ ByRef.analyzing s' = false /\
  ByRef.error s' = VNull /\
  (forall ms k, ByRef.stream s = Some ms -> In k (tracks ms) ->
                In (TrackStop k) (calls t)).
Proof.
  intros Hs Hr. open_capture. rewrite Hr. run; replayed; intros _.
  all: repeat split; try reflexivity; try assumption; try discriminate.
  intros ms k [= <-] Hk. do 5 right. apply in_map. exact Hk.
Qed.

Lemma byid_success (s : ById.state) (w : ById.world) (r : http_response) :
  succeeded (data r) = true ->
  ById.reply w = Fulfilled r ->
  posts (trace (ById.captureAndAnalyze w)) = true ->
  let t := trace (ById.captureAndAnalyze w) in
  let s' := ById.after s (ById.captureAndAnalyze w) in
  ById.result s' = data r /\ ById.capturing s' = false /\
  ById.analyzing s' = false /\ ById.error s' = VNull /\
  (forall v ms k, ById.video w = Some v -> ById.srcObject v = Some ms ->
                  In k (tracks ms) -> In (TrackStop k) (calls t)).
Proof.
  intros Hs Hr. open_capture. rewrite Hr. run; replayed; intros _.
  all: repeat split; try reflexivity; try assumption; try discriminate.
  all: intros v' ms k [= <-] Hm Hk; try congruence.
  replace ms with m in Hk by congruence.
  do 5 right. apply in_map. exact Hk.
Qed.


Lemma well_formed_succeeded (d : value) : well_formed d = true -> succeeded d = true.
Proof.
  destruct d as [| | | | | |fields]; try discriminate.
  unfold well_formed, succeeded. cbn.
  destruct (lookup "success" fields) as [| |[|]| | | |]; try discriminate.
  reflexivity.
Qed.




(** ** The readiness guard *)

(** The guard of the ref variant as the code has it: a missing element, or
    any ready state other than [HAVE_ENOUGH_DATA], ends the handler after
    one [setError]. *)
Lemma byref_guard (s : ByRef.state) (w : ByRef.world) :
  ref_ready w = false ->
  trace (ByRef.captureAndAnalyze s w) =
    [Upd (ByRef.SetError
            (VStr (match ByRef.videoRef w, ByRef.canvasRef w with
                   | Some _, true => "Video not ready. Please wait a moment."
                   | _, _ => "Camera not ready"
                   end)))].
Proof.
  unfold ref_ready, ByRef.captureAndAnalyze.
  destruct (ByRef.videoRef w) as [v|]; [|reflexivity].
  destruct (ByRef.canvasRef w); [|reflexivity].
  cbn [andb]. intros ->. reflexivity.
Qed.

Lemma no_frame_not_ready (w : ByRef.world) :
  ref_has_frame w = false -> ref_ready w = false.
Proof.
  unfold ref_has_frame, ref_ready, HAVE_CURRENT_DATA, HAVE_ENOUGH_DATA.
  destruct (ByRef.videoRef w) as [v|]; [|reflexivity].
  intros H. apply Z.leb_gt in H.
  destruct (ByRef.readyState v =? 4)%Z eqn:E; [|apply andb_false_r].
  apply Z.eqb_eq in E. lia.
Qed.

Lemma byid_starts_unconditionally (w : ById.world) :
  ById.canvas w = true ->
  exists rest,
    trace (ById.captureAndAnalyze w) =
      Upd (ById.SetAnalyzing true) :: Upd (ById.SetError VNull)
      :: Upd (ById.SetResult VNull) :: rest.
Proof.
  intros Hc. unfold ById.captureAndAnalyze. rewrite Hc.
  cbn [bind ret set emit trace fst].
  match goal with
  | |- context [bind ?m ?k] => destruct (bind m k) as [t r]
  end.
  cbn. eexists. reflexivity.
Qed.

Lemma byid_posts_iff (w : ById.world) :
  posts (trace (ById.captureAndAnalyze w)) =
  ById.canvas w
  && match ById.video w with Some _ => true | None => false end
  && negb (empty_frame (ById.encoded w)).
Proof.
  open_capture. run; replayed; reflexivity.
Qed.

(** C2, as the code has it.  In the ref variant, whenever the video
    element is missing or has not buffered a frame, [captureAndAnalyze]
    does one thing: it sets [error] to a message that says "not ready".
    No request goes out and [analyzing] is never set.  The id variant has
    no such guard: whenever the canvas element is there it first sets
    [analyzing] and clears [error] and [result], whatever the video has
    buffered, and a request goes out exactly when the video element is
    there and the encoder hands over a non-empty blob. *)
Theorem not_ready_fails_fast_in_ref_variant_only :
  (forall s w,
      ref_has_frame w = false ->
      let t := trace (ByRef.captureAndAnalyze s w) in
      (exists msg, t = [Upd (ByRef.SetError (VStr msg))] /\
                   mentions "not ready" msg = true) /\
      posts t = false /\
      (forall b, ~ In (ByRef.SetAnalyzing b) (updates t)))
  /\
  (forall w,
      ById.canvas w = true ->
      let t := trace (ById.captureAndAnalyze w) in
      (exists rest,
          t = Upd (ById.SetAnalyzing true) :: Upd (ById.SetError VNull)
              :: Upd (ById.SetResult VNull) :: rest) /\
      posts t =
        match ById.video w with Some _ => true | None => false end
        && negb (empty_frame (ById.encoded w))).
Proof.
  split.
  - intros s w H t. subst t.
    rewrite (byref_guard s w (no_frame_not_ready w H)).
    split; [|split].
    + eexists. split; [reflexivity|].
      destruct (ByRef.videoRef w), (ByRef.canvasRef w); reflexivity.
    + reflexivity.
    + intros b [E|[]]. discriminate E.
  - intros w Hc t. subst t. split.
    + apply byid_starts_unconditionally. exact Hc.
    + rewrite byid_posts_iff, Hc. reflexivity.
Qed.

Lemma not_ready_fails_fast_in_ref_variant_only_witness :
  let wr := Sample.ref_world (Some Sample.blank) (inr Sample.webcam)
              (Some Sample.jpeg) Sample.ok in
  let wi := Sample.id_world (Some Sample.id_blank) (inr Sample.webcam)
              None Sample.ok in
  ref_has_frame wr = false /\
  ById.canvas wi = true /\
  posts (trace (ByRef.captureAndAnalyze Sample.ref_capturing wr)) = false /\
  posts (trace (ById.captureAndAnalyze wi)) = false.
Proof.
  intros wr wi.
  destruct not_ready_fails_fast_in_ref_variant_only as [Href Hid].
  destruct (Href Sample.ref_capturing wr eq_refl) as (_ & Hp & _).
  destruct (Hid wi eq_refl) as (_ & Hq).
  split; [reflexivity|]. split; [reflexivity|]. split; [exact Hp|].
  rewrite Hq. reflexivity.
Defined.

(** C2 as stated fails on the id variant: with a video element that has
    buffered nothing (ready state 0, no dimensions, the encoder giving
    null), [captureAndAnalyze] sets [analyzing], and the message it ends
    with is the capture failure, not a "not ready" one. *)
Lemma id_variant_has_no_readiness_guard :
  let w := Sample.id_world (Some Sample.id_blank) (inr Sample.webcam)
             None Sample.ok in
  let t := trace (ById.captureAndAnalyze w) in
  id_has_frame w = false /\
  In (ById.SetAnalyzing true) (updates t) /\
  ById.error (ById.after Sample.id_capturing (ById.captureAndAnalyze w))
    = VStr "Failed to capture photo" /\
  mentions "not ready" "Failed to capture photo" = false.
Proof.
  cbn. repeat split. left. reflexivity.
Qed.

(** In the id variant a request does go out before a frame is buffered,
    as soon as the encoder returns bytes for the canvas (ready state 1:
    the dimensions are known, nothing has been drawn). *)
Lemma id_variant_posts_an_undrawn_canvas :
  let v := {| ById.srcObject := Some Sample.webcam;
              ById.readyState := 1;
              ById.videoWidth := 1280; ById.videoHeight := 720 |} in
  let w := Sample.id_world (Some v) (inr Sample.webcam)
             (Some Sample.jpeg) Sample.ok in
  id_has_frame w = false /\ posts (trace (ById.captureAndAnalyze w)) = true.
Proof. split; reflexivity. Qed.

(** ** Failures of a submission *)








(** ** An empty frame *)

Lemma byref_empty_frame (s : ByRef.state) (w : ByRef.world) :
  empty_frame (ByRef.encoded w) = true ->
  let t := trace (ByRef.captureAndAnalyze s w) in
  let s' := ByRef.after s (ByRef.captureAndAnalyze s w) in
  posts t = false /\
  (encodes t = true ->
   ByRef.error s' = VStr "Failed to capture photo" /\ ByRef.result s' = VNull /\
   ByRef.capturing s' = ByRef.capturing s /\ ByRef.stream s' = ByRef.stream s /\
   ByRef.analyzing s' = false).
Proof.
  open_capture. run; replayed; intros _.
  all: split; [reflexivity|intros E; try discriminate E].
  all: repeat split.
Qed.

Lemma byid_empty_frame (s : ById.state) (w : ById.world) :
  empty_frame (ById.encoded w) = true ->
  let t := trace (ById.captureAndAnalyze w) in
  let s' := ById.after s (ById.captureAndAnalyze w) in
  posts t = false /\
  (encodes t = true ->
   ById.error s' = VStr "Failed to capture photo" /\ ById.result s' = VNull /\
   ById.capturing s' = ById.capturing s /\ ById.analyzing s' = false).
Proof.
  open_capture. run; replayed; intros _.
  all: split; [reflexivity|intros E; try discriminate E].
  all: repeat split.
Qed.

(** C6.  When the encoder hands over null or a blob of zero bytes,
    [captureAndAnalyze] issues no request; and once the encoder has been
    called the handler ends with [error] set to "Failed to capture photo",
    [result] null, [capturing] as it was and [analyzing] false.  Both
    variants. *)
Theorem empty_frame_fails_locally :
  forall frame : option blob,
    empty_frame frame = true ->
    (forall s w,
        ByRef.encoded w = frame ->
        let t := trace (ByRef.captureAndAnalyze s w) in
        let s' := ByRef.after s (ByRef.captureAndAnalyze s w) in
        posts t = false /\
        (encodes t = true ->
         ByRef.error s' = VStr "Failed to capture photo" /\
         ByRef.result s' = VNull /\
         ByRef.capturing s' = ByRef.capturing s /\
         ByRef.stream s' = ByRef.stream s /\
         ByRef.analyzing s' = false))
    /\
    (forall s w,
        ById.encoded w = frame ->
        let t := trace (ById.captureAndAnalyze w) in
        let s' := ById.after s (ById.captureAndAnalyze w) in
        posts t = false /\
        (encodes t = true ->
         ById.error s' = VStr "Failed to capture photo" /\
         ById.result s' = VNull /\
         ById.capturing s' = ById.capturing s /\
         ById.analyzing s' = false)).
Proof.
  intros frame Hf. split; intros s w Hw; subst frame.
  - exact (byref_empty_frame s w Hf).
  - exact (byid_empty_frame s w Hf).
Qed.

Lemma empty_frame_fails_locally_witness :
  let nothing := Some {| bytes := ""; mime := "image/jpeg" |} in
  let wr := Sample.ref_world (Some Sample.playing) (inr Sample.webcam)
              nothing Sample.ok in
  let wi := Sample.id_world (Some Sample.id_playing) (inr Sample.webcam)
              None Sample.ok in
  empty_frame nothing = true /\ empty_frame None = true /\
  posts (trace (ByRef.captureAndAnalyze Sample.ref_capturing wr)) = false /\
  ByRef.error (ByRef.after Sample.ref_capturing
                 (ByRef.captureAndAnalyze Sample.ref_capturing wr))
    = VStr "Failed to capture photo" /\
  posts (trace (ById.captureAndAnalyze wi)) = false /\
  ById.error (ById.after Sample.id_capturing (ById.captureAndAnalyze wi))
    = VStr "Failed to capture photo".
Proof.
  intros nothing wr wi.
  destruct (empty_frame_fails_locally nothing eq_refl) as [Href _].
  destruct (empty_frame_fails_locally None eq_refl) as [_ Hid].
  destruct (Href Sample.ref_capturing wr eq_refl) as (R1 & R2).
  destruct (Hid Sample.id_capturing wi eq_refl) as (I1 & I2).
  destruct (R2 eq_refl) as (R3 & _). destruct (I2 eq_refl) as (I3 & _).
  split; [reflexivity|]. split; [reflexivity|].
  split; [exact R1|]. split; [exact R3|]. split; [exact I1 | exact I3].
Defined.

(** ** What a submission does first *)

Lemma byref_submission_clears_first (s : ByRef.state) (w : ByRef.world) :
  ref_ready w = true ->
  let t := trace (ByRef.captureAndAnalyze s w) in
  let s' := ByRef.after s (ByRef.captureAndAnalyze s w) in
  (exists rest,
      t = Upd (ByRef.SetAnalyzing true) :: Upd (ByRef.SetError VNull)
          :: Upd (ByRef.SetResult VNull) :: rest) /\
  (forall p st, In (p, st) (suspended_in ByRef.apply s t) ->
      ByRef.result st = VNull /\ ByRef.error st = VNull /\
      ByRef.analyzing st = true /\ ByRef.capturing st = ByRef.capturing s) /\
  (ByRef.result s' = VNull \/
   exists r, ByRef.reply w = Fulfilled r /\ succeeded (data r) = true /\
             posts t = true /\ ByRef.result s' = data r).
Proof.
  unfold ref_ready. open_capture. run; replayed; intros H.
  all: try (rewrite H in *; discriminate).
  all: (split; [eexists; reflexivity|]).
  all: (split; [intros p st Hin;
                repeat (destruct Hin as [[= <- <-]|Hin]; [repeat split|]);
                destruct Hin|]).
  all: try (left; reflexivity).
  all: right; eexists; split; [reflexivity|]; unfold succeeded;
    match goal with H : prop _ _ = _ |- _ => rewrite H end; repeat split;
    assumption.
Qed.

Lemma byid_submission_clears_first (s : ById.state) (w : ById.world) :
  ById.canvas w = true ->
  let t := trace (ById.captureAndAnalyze w) in
  let s' := ById.after s (ById.captureAndAnalyze w) in
  (exists rest,
      t = Upd (ById.SetAnalyzing true) :: Upd (ById.SetError VNull)
          :: Upd (ById.SetResult VNull) :: rest) /\
  (forall p st, In (p, st) (suspended_in ById.apply s t) ->
      ById.result st = VNull /\ ById.error st = VNull /\
      ById.analyzing st = true /\ ById.capturing st = ById.capturing s) /\
  (ById.result s' = VNull \/
   exists r, ById.reply w = Fulfilled r /\ succeeded (data r) = true /\
             posts t = true /\ ById.result s' = data r).
Proof.
  open_capture. run; replayed; intros _.
  all: (split; [eexists; reflexivity|]).
  all: (split; [intros p st Hin;
                repeat (destruct Hin as [[= <- <-]|Hin]; [repeat split|]);
                destruct Hin|]).
  all: try (left; reflexivity).
  all: right; eexists; split; [reflexivity|]; unfold succeeded;
    match goal with H : prop _ _ = _ |- _ => rewrite H end; repeat split;
    assumption.
Qed.

(** C10.  Once [captureAndAnalyze] is past its guards (the two checks of
    the ref variant; in the id variant, the canvas lookup), its first
    three actions are [setAnalyzing(true)], [setError(null)] and
    [setResult(null)]: nothing is encoded or sent before them.  Whenever
    the handler is suspended (on the encoder, on the request) [result]
    and [error] are null; and it ends with [result] null on every path
    but the one where the request went out and the body says success,
    whatever [result] held before.  Both variants. *)
Theorem submission_discards_previous_result :
  (forall s w,
      ref_ready w = true ->
      let t := trace (ByRef.captureAndAnalyze s w) in
      let s' := ByRef.after s (ByRef.captureAndAnalyze s w) in
      (exists rest,
          t = Upd (ByRef.SetAnalyzing true) :: Upd (ByRef.SetError VNull)
              :: Upd (ByRef.SetResult VNull) :: rest) /\
      (forall p st, In (p, st) (suspended_in ByRef.apply s t) ->
          ByRef.result st = VNull /\ ByRef.error st = VNull) /\
      (ByRef.result s' = VNull \/
       exists r, ByRef.reply w = Fulfilled r /\ succeeded (data r) = true /\
                 posts t = true /\ ByRef.result s' = data r))
  /\
  (forall s w,
      ById.canvas w = true ->
      let t := trace (ById.captureAndAnalyze w) in
      let s' := ById.after s (ById.captureAndAnalyze w) in
      (exists rest,
          t = Upd (ById.SetAnalyzing true) :: Upd (ById.SetError VNull)
              :: Upd (ById.SetResult VNull) :: rest) /\
      (forall p st, In (p, st) (suspended_in ById.apply s t) ->
          ById.result st = VNull /\ ById.error st = VNull) /\
      (ById.result s' = VNull \/
       exists r, ById.reply w = Fulfilled r /\ succeeded (data r) = true /\
                 posts t = true /\ ById.result s' = data r)).
Proof.
  split; intros s w H.
  - destruct (byref_submission_clears_first s w H) as (A & B & C).
    split; [exact A|]. split; [|exact C].
    intros p st Hin. destruct (B p st Hin) as (? & ? & _). split; assumption.
  - destruct (byid_submission_clears_first s w H) as (A & B & C).
    split; [exact A|]. split; [|exact C].
    intros p st Hin. destruct (B p st Hin) as (? & ? & _). split; assumption.
Qed.

Lemma submission_discards_previous_result_witness :
  let wr := Sample.ref_world (Some Sample.playing) (inr Sample.webcam)
              (Some Sample.jpeg) Sample.timed_out in
  let wi := Sample.id_world (Some Sample.id_playing) (inr Sample.webcam)
              (Some Sample.jpeg) Sample.not_ok in
  ref_ready wr = true /\ ById.canvas wi = true /\
  ByRef.result Sample.ref_showing = Sample.analysis /\
  ByRef.result (ByRef.after Sample.ref_showing
                  (ByRef.captureAndAnalyze Sample.ref_showing wr)) = VNull /\
  ById.result Sample.id_showing = Sample.analysis /\
  ById.result (ById.after Sample.id_showing (ById.captureAndAnalyze wi)) = VNull.
Proof.
  intros wr wi.
  destruct submission_discards_previous_result as [Href Hid].
  destruct (Href Sample.ref_showing wr eq_refl) as (_ & _ & [R|(r & E & _)]);
    [|discriminate E].
  destruct (Hid Sample.id_showing wi eq_refl) as (_ & _ & [I|(r & E & S & _)]);
    [|injection E as <-; discriminate S].
  repeat split; assumption.
Defined.

(** ** Which message a backend failure leaves *)

Lemma byref_says_failure (s : ByRef.state) (w : ByRef.world)
    (r : http_response) (x : value) :
  prop (data r) "success" = inr x -> truthy x = false ->
  ByRef.reply w = Fulfilled r ->
  posts (trace (ByRef.captureAndAnalyze s w)) = true ->
  ByRef.error (ByRef.after s (ByRef.captureAndAnalyze s w))
    = VStr "Failed to analyze image".
Proof.
  intros Hx Ht Hr. open_capture. rewrite Hr.
  run; replayed; intros _; try reflexivity; congruence.
Qed.

Lemma byid_says_failure (s : ById.state) (w : ById.world)
    (r : http_response) (x : value) :
  prop (data r) "success" = inr x -> truthy x = false ->
  ById.reply w = Fulfilled r ->
  posts (trace (ById.captureAndAnalyze w)) = true ->
  ById.error (ById.after s (ById.captureAndAnalyze w))
    = VStr "Failed to analyze image".
Proof.
  intros Hx Ht Hr. open_capture. rewrite Hr.
  run; replayed; intros _; try reflexivity; congruence.
Qed.

Lemma byid_rejected (s : ById.state) (w : ById.world) (err : js_error) :
  ById.reply w = Rejected err ->
  posts (trace (ById.captureAndAnalyze w)) = true ->
  ById.error (ById.after s (ById.captureAndAnalyze w))
    = or_else (err_response_data_error err)
        (VStr "Failed to analyze. Please try again.").
Proof.
  intros Hr. open_capture. rewrite Hr.
  run; replayed; intros _; reflexivity.
Qed.

(** What the ref variant does with a rejected request (line 424): the
    error's own message comes first. *)
Lemma byref_rejected (s : ByRef.state) (w : ByRef.world) (err : js_error) :
  ByRef.reply w = Rejected err ->
  posts (trace (ByRef.captureAndAnalyze s w)) = true ->
  ByRef.error (ByRef.after s (ByRef.captureAndAnalyze s w))
    = or_else (err_message err)
        (or_else (err_response_data_error err)
           (VStr "Failed to analyze. Please try again.")).
Proof.
  intros Hr. open_capture. rewrite Hr.
  run; replayed; intros _; reflexivity.
Qed.

(** C7, as the code has it.  A body that can be read and does not say
    success leaves the fixed message "Failed to analyze image", whatever
    else the body holds (both variants).  A rejected request leaves, in the
    id variant, the [error] field of the response body when there is a
    response and the field is truthy, and "Failed to analyze. Please try
    again." otherwise. *)
Theorem backend_failure_message :
  (forall (r : http_response) (x : value),
      prop (data r) "success" = inr x -> truthy x = false ->
      (forall s w,
          ByRef.reply w = Fulfilled r ->
          posts (trace (ByRef.captureAndAnalyze s w)) = true ->
          ByRef.error (ByRef.after s (ByRef.captureAndAnalyze s w))
            = VStr "Failed to analyze image")
      /\
      (forall s w,
          ById.reply w = Fulfilled r ->
          posts (trace (ById.captureAndAnalyze w)) = true ->
          ById.error (ById.after s (ById.captureAndAnalyze w))
            = VStr "Failed to analyze image"))
  /\
  (forall (err : js_error) s w,
      ById.reply w = Rejected err ->
      posts (trace (ById.captureAndAnalyze w)) = true ->
      let supplied := err_response_data_error err in
      ById.error (ById.after s (ById.captureAndAnalyze w))
        = if truthy supplied then supplied
          else VStr "Failed to analyze. Please try again.").
Proof.
  split.
  - intros r x Hx Ht. split; intros s w Hr Hp.
    + eapply byref_says_failure; eassumption.
    + eapply byid_says_failure; eassumption.
  - intros err s w Hr Hp. apply byid_rejected; assumption.
Qed.

Lemma backend_failure_message_witness :
  let wr := Sample.ref_world (Some Sample.playing) (inr Sample.webcam)
              (Some Sample.jpeg) Sample.not_ok in
  let wi o := Sample.id_world (Some Sample.id_playing) (inr Sample.webcam)
              (Some Sample.jpeg) o in
  ByRef.error (ByRef.after Sample.ref_capturing
                 (ByRef.captureAndAnalyze Sample.ref_capturing wr))
    = VStr "Failed to analyze image" /\
  ById.error (ById.after Sample.id_capturing
                (ById.captureAndAnalyze (wi Sample.server_error)))
    = VStr "Model unavailable" /\
  ById.error (ById.after Sample.id_capturing
                (ById.captureAndAnalyze (wi Sample.timed_out)))
    = VStr "Failed to analyze. Please try again.".
Proof.
  intros wr wi.
  destruct backend_failure_message as [Hsays Hrej].
  destruct (Hsays {| status := 200; data := Sample.refusal |} (VBool false)
              eq_refl eq_refl) as [Href _].
  split; [exact (Href Sample.ref_capturing wr eq_refl eq_refl)|].
  split.
  - exact (Hrej _ Sample.id_capturing (wi Sample.server_error) eq_refl eq_refl).
  - exact (Hrej _ Sample.id_capturing (wi Sample.timed_out) eq_refl eq_refl).
Defined.

(** C7 as stated fails: a body that reports the failure together with a
    message of its own is answered, in both variants, by the fixed
    message. *)
Lemma server_message_ignored_when_body_says_failure :
  let wr := Sample.ref_world (Some Sample.playing) (inr Sample.webcam)
              (Some Sample.jpeg) Sample.not_ok in
  let wi := Sample.id_world (Some Sample.id_playing) (inr Sample.webcam)
              (Some Sample.jpeg) Sample.not_ok in
  opt_prop Sample.refusal "error" = VStr "No food detected" /\
  ByRef.error (ByRef.after Sample.ref_capturing
                 (ByRef.captureAndAnalyze Sample.ref_capturing wr))
    = VStr "Failed to analyze image" /\
  ById.error (ById.after Sample.id_capturing (ById.captureAndAnalyze wi))
    = VStr "Failed to analyze image" /\
  VStr "Failed to analyze image" <> VStr "No food detected".
Proof.
  cbn. repeat split. discriminate.
Qed.

(** In the ref variant the same happens to a rejected request: the text
    axios gives the error hides the message the server sent. *)
Lemma ref_variant_prefers_own_message :
  let wr := Sample.ref_world (Some Sample.playing) (inr Sample.webcam)
              (Some Sample.jpeg) Sample.server_error in
  ByRef.error (ByRef.after Sample.ref_capturing
                 (ByRef.captureAndAnalyze Sample.ref_capturing wr))
    = VStr "Request failed with status code 500".
Proof. reflexivity. Qed.

(** ** Downloading the receipt *)

Lemma append_empty (s : string) : (s ++ "")%string = s.
Proof. induction s as [|c s IH]; [reflexivity|]. cbn. rewrite IH. reflexivity. Qed.

Lemma text_of_one_string (html : string) : text_of [VStr html] = Some html.
Proof. cbn. rewrite append_empty. reflexivity. Qed.

(** The five browser calls of lines 113-121 (434-442) save one file. *)
Lemma saved_by_download (part : value) (url name : string) :
  saved [CreateObjectURL [part] "text/html" url; AppendChild;
         AnchorClick url name; RemoveChild; RevokeObjectURL url]
  = [{| file_name := name; file_parts := [part]; file_type := "text/html" |}].
Proof. unfold saved. cbn. rewrite String.eqb_refl. reflexivity. Qed.

Lemma stored_html_is_of_an_object (res : value) (html : string) :
  opt_prop res "receipt_html" = VStr html ->
  truthy res = true /\ prop res "receipt_html" = inr (VStr html).
Proof.
  destruct res; cbn; try discriminate. intros ->. split; reflexivity.
Qed.

Lemma byref_download_nothing (s : ByRef.state) (w : ByRef.world) :
  ByRef.result s = VNull -> ByRef.downloadReceipt s w = ([], inr tt).
Proof. unfold ByRef.downloadReceipt. intros ->. reflexivity. Qed.

Lemma byid_download_nothing (s : ById.state) (w : ById.world) :
  ById.result s = VNull -> ById.downloadReceipt s w = ([], inr tt).
Proof. unfold ById.downloadReceipt. intros ->. reflexivity. Qed.

Lemma byref_download (s : ByRef.state) (w : ByRef.world) (html : string) :
  opt_prop (ByRef.result s) "receipt_html" = VStr html ->
  let t := trace (ByRef.downloadReceipt s w) in
  updates t = [] /\
  saved (calls t) =
    [{| file_name := "receipt_" ++ decimal (ByRef.now w) ++ ".html";
        file_parts := [VStr html]; file_type := "text/html" |}].
Proof.
  intros H. destruct (stored_html_is_of_an_object _ H) as [Ht Hp].
  unfold ByRef.downloadReceipt. rewrite Ht, Hp. cbn [negb settle bind].
  split; [reflexivity|]. apply saved_by_download.
Qed.

Lemma byid_download (s : ById.state) (w : ById.world) (html : string) :
  opt_prop (ById.result s) "receipt_html" = VStr html ->
  let t := trace (ById.downloadReceipt s w) in
  updates t = [] /\
  saved (calls t) =
    [{| file_name := "receipt_" ++ decimal (ById.now w) ++ ".html";
        file_parts := [VStr html]; file_type := "text/html" |}].
Proof.
  intros H. destruct (stored_html_is_of_an_object _ H) as [Ht Hp].
  unfold ById.downloadReceipt. rewrite Ht, Hp. cbn [negb settle bind].
  split; [reflexivity|]. apply saved_by_download.
Qed.

(** C8.  With [result] null, [downloadReceipt] does nothing at all: no
    setter call, no browser call.  With a result whose [receipt_html] is
    the string [html], it changes no state and saves exactly one file, of
    type text/html, named after the clock, whose text is [html].  Both
    variants. *)
Theorem download_receipt_saves_stored_html :
  (forall s w, ByRef.result s = VNull ->
               ByRef.downloadReceipt s w = ([], inr tt))
  /\
  (forall s w, ById.result s = VNull ->
               ById.downloadReceipt s w = ([], inr tt))
  /\
  (forall s w html,
      opt_prop (ByRef.result s) "receipt_html" = VStr html ->
      let t := trace (ByRef.downloadReceipt s w) in
      updates t = [] /\
      exists f,
        saved (calls t) = [f] /\
        file_name f = ("receipt_" ++ decimal (ByRef.now w) ++ ".html")%string /\
        file_type f = "text/html" /\
        text_of (file_parts f) = Some html)
  /\
  (forall s w html,
      opt_prop (ById.result s) "receipt_html" = VStr html ->
      let t := trace (ById.downloadReceipt s w) in
      updates t = [] /\
      exists f,
        saved (calls t) = [f] /\
        file_name f = ("receipt_" ++ decimal (ById.now w) ++ ".html")%string /\
        file_type f = "text/html" /\
        text_of (file_parts f) = Some html).
Proof.
  split; [exact byref_download_nothing|].
  split; [exact byid_download_nothing|].
  split; intros s w html H.
  - destruct (byref_download s w H) as [U Sv]. split; [exact U|].
    eexists. split; [exact Sv|]. cbn [file_name file_type file_parts].
    repeat split. apply text_of_one_string.
  - destruct (byid_download s w H) as [U Sv]. split; [exact U|].
    eexists. split; [exact Sv|]. cbn [file_name file_type file_parts].
    repeat split. apply text_of_one_string.
Qed.

Lemma download_receipt_saves_stored_html_witness :
  let wr := Sample.ref_world None (inr Sample.webcam) None Sample.ok in
  let wi := Sample.id_world None (inr Sample.webcam) None Sample.ok in
  ByRef.downloadReceipt ByRef.initial wr = ([], inr tt) /\
  ById.downloadReceipt ById.initial wi = ([], inr tt) /\
  (exists f, saved (calls (trace (ByRef.downloadReceipt Sample.ref_showing wr))) = [f] /\
             file_name f = "receipt_1705321800000.html" /\
             text_of (file_parts f) = Some Sample.receipt) /\
  (exists f, saved (calls (trace (ById.downloadReceipt Sample.id_showing wi))) = [f] /\
             file_name f = "receipt_1705321800000.html" /\
             text_of (file_parts f) = Some Sample.receipt).
Proof.
  intros wr wi.
  destruct download_receipt_saves_stored_html as (N1 & N2 & D1 & D2).
  split; [exact (N1 ByRef.initial wr eq_refl)|].
  split; [exact (N2 ById.initial wi eq_refl)|].
  split.
  - destruct (D1 Sample.ref_showing wr Sample.receipt eq_refl)
      as (_ & f & Hs & Hn & _ & Ht).
    exists f. repeat split; assumption.
  - destruct (D2 Sample.id_showing wi Sample.receipt eq_refl)
      as (_ & f & Hs & Hn & _ & Ht).
    exists f. repeat split; assumption.
Defined.

(** ** Reset *)

(** C9, as the code has it.  [reset] sets [result] and [error] to null
    and does nothing else: [capturing], [analyzing] (and, in the ref
    variant, [stream]) keep their values and the browser is not called.
    So the component is idle afterwards exactly when [capturing] was false
    before.  Both variants. *)
Theorem reset_clears_result_and_error_only :
  (forall s,
      let s' := ByRef.after s ByRef.reset in
      ByRef.result s' = VNull /\ ByRef.error s' = VNull /\
      ByRef.capturing s' = ByRef.capturing s /\
      ByRef.stream s' = ByRef.stream s /\
      ByRef.analyzing s' = ByRef.analyzing s /\
      calls (trace ByRef.reset) = [])
  /\
  (forall s,
      let s' := ById.after s ById.reset in
      ById.result s' = VNull /\ ById.error s' = VNull /\
      ById.capturing s' = ById.capturing s /\
      ById.analyzing s' = ById.analyzing s /\
      calls (trace ById.reset) = []).
Proof. split; intros s; cbn; repeat split. Qed.

(** C9 as stated fails: after a failed analysis the error is shown in
    capture mode; "Try Again" is clickable there, and [reset] leaves
    [capturing] true and the stream in place.  The state is reached from
    the initial one by three clicks. *)
Lemma reset_leaves_capture_mode_on :
  let grant := Sample.ref_world None (inr Sample.webcam) None Sample.ok in
  let fail := Sample.ref_world (Some Sample.playing) (inr Sample.webcam)
                (Some Sample.jpeg) Sample.not_ok in
  let s1 := ByRef.click ByRef.initial StartCameraBtn grant in
  let s2 := ByRef.click s1 CaptureBtn fail in
  let s3 := ByRef.click s2 TryAgainBtn fail in
  let grant' := Sample.id_world (Some Sample.id_blank) (inr Sample.webcam)
                  None Sample.ok in
  let fail' := Sample.id_world (Some Sample.id_playing) (inr Sample.webcam)
                 (Some Sample.jpeg) Sample.not_ok in
  let i1 := ById.click ById.initial StartCameraBtn grant' in
  let i2 := ById.click i1 CaptureBtn fail' in
  let i3 := ById.click i2 TryAgainBtn fail' in
  ByRef.clickable ByRef.initial StartCameraBtn = true /\
  ByRef.clickable s1 CaptureBtn = true /\
  ByRef.clickable s2 TryAgainBtn = true /\
  s3 = ByRef.after s2 ByRef.reset /\
  ByRef.capturing s3 = true /\ ByRef.stream s3 = Some Sample.webcam /\
  ById.clickable ById.initial StartCameraBtn = true /\
  ById.clickable i1 CaptureBtn = true /\
  ById.clickable i2 TryAgainBtn = true /\
  ById.capturing i3 = true.
Proof. cbn. repeat split. Qed.

(** ** Starting the camera *)

Lemma byid_cameraCleanup_eq (w : ById.world) :
  ById.cameraCleanup w =
  match ById.video w with
  | Some v => (match ById.srcObject v with
               | Some ms => stops _ (tracks ms)
               | None => []
               end, inr tt)
  | None => ([], inl (cannot_read "null" "srcObject"))
  end.
Proof.
  unfold ById.cameraCleanup. destruct (ById.video w) as [v|]; [|reflexivity].
  destruct (ById.srcObject v) as [ms|]; [|reflexivity].
  apply for_each_stop.
Qed.

Lemma byref_streamCleanup_eq (old : option media_stream) :
  ByRef.streamCleanup old =
  (match old with Some ms => stops _ (tracks ms) | None => [] end, inr tt).
Proof. destruct old as [ms|]; [apply for_each_stop | reflexivity]. Qed.

Ltac open_episode :=
  unfold ById.click, ById.startCapture, ById.episode, ById.rerender,
    ById.onClick, ById.startCamera, ById.reset, ById.cameraEffect,
    ByRef.click, ByRef.episode, ByRef.rerender, ByRef.after, ByRef.onClick,
    ByRef.startCamera, ByRef.reset, refused in *;
  rewrite ?byid_cameraCleanup_eq, ?byid_stopCamera_eq, ?byref_stopCamera_eq,
    ?byref_streamCleanup_eq in *.

Ltac run_through :=
  repeat (replayed; try discriminate; try split_on_test).

Lemma byref_camera_refused (s : ByRef.state) (w : ByRef.world) :
  refused (ByRef.mediaDevices w) (ByRef.camera w) = true ->
  let t := trace (ByRef.startCamera w) in
  let s' := ByRef.after s (ByRef.startCamera w) in
  updates t = [ByRef.SetError VNull; ByRef.SetError (VStr camera_denied_msg)] /\
  ByRef.capturing s' = ByRef.capturing s /\
  ByRef.stream s' = ByRef.stream s /\
  ByRef.error s' = VStr camera_denied_msg /\
  (forall p st, In (p, st) (suspended_in ByRef.apply s t) ->
                ByRef.capturing st = ByRef.capturing s).
Proof.
  open_episode. run_through; intros _.
  all: repeat split.
  all: intros p st Hin;
       repeat (destruct Hin as [[= <- <-]|Hin]; [reflexivity|]); destruct Hin.
Qed.

Lemma byid_camera_refused (s : ById.state) (w : ById.world) (err : js_error) :
  ById.capturing s = false ->
  ById.mediaDevices w = true ->
  ById.camera w = inl err ->
  let t := ById.startCapture s w in
  let s' := replay ById.apply s t in
  ById.capturing s' = false /\
  ById.error s' = VStr camera_denied_msg /\
  exists st, suspended_in ById.apply s t = [(Camera, st)] /\
             ById.capturing st = true /\ ById.error st = VNull /\
             ById.result st = ById.result s.
Proof.
  intros Hc Hm Hcam. open_episode. rewrite Hc, Hm, Hcam. run_through.
  all: repeat split.
  all: eexists; split; [reflexivity|]; repeat split.
Qed.

(** C5, as the code has it.  When the camera is refused, starting capture
    ends with the fixed message in [error] and, started from idle, with
    [capturing] false.  The ref variant (refused: the promise of
    [getUserMedia] is rejected, or [navigator.mediaDevices] is missing)
    never calls [setCapturing] on that path, so capture mode is not
    presented at any point.  The id variant (refused: the promise is
    rejected) has set [capturing] to true before it asks, so capture mode
    is presented while the request is pending, and sets it back to false
    on the rejection. *)
Theorem camera_refusal_sets_error_and_ends_idle :
  (forall s w,
      refused (ByRef.mediaDevices w) (ByRef.camera w) = true ->
      let t := trace (ByRef.startCamera w) in
      let s' := ByRef.after s (ByRef.startCamera w) in
      (forall b, ~ In (ByRef.SetCapturing b) (updates t)) /\
      ByRef.capturing s' = ByRef.capturing s /\
      ByRef.stream s' = ByRef.stream s /\
      ByRef.error s' = VStr camera_denied_msg /\
      (forall p st, In (p, st) (suspended_in ByRef.apply s t) ->
                    ByRef.capturing st = ByRef.capturing s))
  /\
  (forall s w err,
      ById.capturing s = false ->
      ById.mediaDevices w = true ->
      ById.camera w = inl err ->
      let t := ById.startCapture s w in
      let s' := replay ById.apply s t in
      ById.capturing s' = false /\
      ById.error s' = VStr camera_denied_msg /\
      exists st, suspended_in ById.apply s t = [(Camera, st)] /\
                 ById.capturing st = true)
  /\
  is_message (VStr camera_denied_msg) = true.
Proof.
  split; [|split; [|reflexivity]].
  - intros s w H t s'.
    destruct (byref_camera_refused s w H) as (U & C & S & E & P).
    split; [|repeat split; assumption].
    intros b Hin. subst t. rewrite U in Hin.
    destruct Hin as [X|[X|[]]]; discriminate X.
  - intros s w err Hc Hm Hcam.
    destruct (byid_camera_refused s w Hc Hm Hcam) as (C & E & st & Hs & Hst & _).
    split; [exact C|]. split; [exact E|]. exists st. split; assumption.
Qed.

Lemma camera_refusal_sets_error_and_ends_idle_witness :
  let wr := Sample.ref_world None (inl Sample.denied) None Sample.ok in
  let wi := Sample.id_world (Some Sample.id_blank) (inl Sample.denied)
              None Sample.ok in
  refused (ByRef.mediaDevices wr) (ByRef.camera wr) = true /\
  ByRef.capturing (ByRef.after ByRef.initial (ByRef.startCamera wr)) = false /\
  ByRef.error (ByRef.after ByRef.initial (ByRef.startCamera wr))
    = VStr camera_denied_msg /\
  ById.capturing (replay ById.apply ById.initial
                    (ById.startCapture ById.initial wi)) = false /\
  ById.error (replay ById.apply ById.initial
                (ById.startCapture ById.initial wi))
    = VStr camera_denied_msg.
Proof.
  intros wr wi.
  destruct camera_refusal_sets_error_and_ends_idle as (Href & Hid & _).
  destruct (Href ByRef.initial wr eq_refl) as (_ & C & _ & E & _).
  destruct (Hid ById.initial wi Sample.denied eq_refl eq_refl eq_refl)
    as (C' & E' & _).
  split; [reflexivity|]. split; [exact C|]. split; [exact E|].
  split; [exact C' | exact E'].
Defined.

(** C5 as stated fails on the id variant: started from the initial state
    with the camera denied, the component is in capture mode (the capture
    button is rendered) while the request is pending. *)
Lemma id_variant_presents_capture_mode_before_refusal :
  let w := Sample.id_world (Some Sample.id_blank) (inl Sample.denied)
             None Sample.ok in
  let pending_state :=
    {| ById.capturing := true; ById.analyzing := false;
       ById.result := VNull; ById.error := VNull |} in
  ById.clickable ById.initial StartCameraBtn = true /\
  suspended_in ById.apply ById.initial (ById.startCapture ById.initial w)
    = [(Camera, pending_state)] /\
  ById.rendered pending_state CaptureBtn = true /\
  ById.rendered pending_state StartCameraBtn = false.
Proof. cbn. repeat split. Qed.

(** ** The invariant *)


Ltac in_cases :=
  match goal with
  | H : False |- _ => destruct H
  | H : In _ [] |- _ => destruct H
  | H : In _ (_ :: _) |- _ => destruct H as [[= <- <-]|H]
  | H : (_, _) = (_, _) \/ _ |- _ => destruct H as [[= <- <-]|H]
  | H : In _ (_ ++ _) |- _ => apply in_app_or in H as [H|H]
  end.

Ltac suspended_cases :=
  intros p st Hin; autorewrite with trace in Hin; cbn in Hin; repeat in_cases.



(** The render after it changes no state and suspends nothing. *)
Lemma byref_rerender_quiet (s0 s1 : ByRef.state) :
  updates (trace (ByRef.rerender s0 s1)) = [] /\
  forall s, suspended_in ByRef.apply s (trace (ByRef.rerender s0 s1)) = [].
Proof.
  unfold ByRef.rerender. rewrite byref_streamCleanup_eq.
  destruct (ByRef.same_stream _ _); [split; reflexivity|].
  destruct (ByRef.stream s0) as [ms|]; [|split; reflexivity].
  cbn [trace fst]. split; [apply updates_stops|].
  intros s. apply suspended_in_stops.
Qed.














(* ===================================================================== *)
(** * More facts, off the claims' path                                    *)
(* ===================================================================== *)

(** ** The view *)

(** X1.  Of the three main sections of the JSX (lines 142-215 and 463-530,
    225 and 540) exactly one is rendered in every state: the welcome
    section with the start button when there is neither camera nor result,
    the camera section when [capturing] holds and there is no result, the
    results section when there is a result, whatever [capturing] says.
    The cancel button goes with the capture button, "New Scan" with the
    download button, and the error banner is rendered exactly when [error]
    is truthy, next to whichever section is shown.  Both variants. *)
Theorem exactly_one_main_section_is_rendered :
  (forall s : ByRef.state,
      let start := ByRef.rendered s StartCameraBtn in
      let camera := ByRef.rendered s CaptureBtn in
      let results := ByRef.rendered s DownloadBtn in
      ((start, camera, results) = (true, false, false) \/
       (start, camera, results) = (false, true, false) \/
       (start, camera, results) = (false, false, true)) /\
      results = truthy (ByRef.result s) /\
      ByRef.rendered s CancelBtn = camera /\
      ByRef.rendered s NewScanBtn = results /\
      ByRef.rendered s TryAgainBtn = truthy (ByRef.error s))
  /\
  (forall s : ById.state,
      let start := ById.rendered s StartCameraBtn in
      let camera := ById.rendered s CaptureBtn in
      let results := ById.rendered s DownloadBtn in
      ((start, camera, results) = (true, false, false) \/
       (start, camera, results) = (false, true, false) \/
       (start, camera, results) = (false, false, true)) /\
      results = truthy (ById.result s) /\
      ById.rendered s CancelBtn = camera /\
      ById.rendered s NewScanBtn = results /\
      ById.rendered s TryAgainBtn = truthy (ById.error s)).
Proof.
  split; intros s; cbn.
  - destruct (ByRef.capturing s), (truthy (ByRef.result s)); cbn; tauto.
  - destruct (ById.capturing s), (truthy (ById.result s)); cbn; tauto.
Qed.

(** ** Rendering the results *)

Lemma prop_of_present (d : value) (k : string) :
  is_nullish d = false -> prop d k = inr (opt_prop d k).
Proof. destruct d; try discriminate; reflexivity. Qed.

Lemma prop_of_nullish (d : value) (k : string) :
  is_nullish d = true -> exists e, prop d k = inl e.
Proof. destruct d; try discriminate; eexists; reflexivity. Qed.

Lemma item_card_of_present (item : value) :
  is_nullish item = false -> exists c, item_card_of item = inr c.
Proof.
  intros H. unfold item_card_of. rewrite !prop_of_present by exact H. cbn.
  eexists. reflexivity.
Qed.

Lemma item_card_of_nullish (item : value) :
  is_nullish item = true -> exists e, item_card_of item = inl e.
Proof. destruct item; try discriminate; eexists; reflexivity. Qed.

Lemma map_items_renders (elems : list value) :
  (exists cs, map_items item_card_of elems = inr cs) <->
  forallb (fun item => negb (is_nullish item)) elems = true.
Proof.
  induction elems as [|item rest IH]; cbn [map_items forallb].
  - split; [reflexivity | eexists; reflexivity].
  - destruct (is_nullish item) eqn:N; cbn [negb andb].
    + destruct (@item_card_of_nullish item N) as [e ->]. cbn.
      split; [intros [cs H]; discriminate H | discriminate].
    + destruct (@item_card_of_present item N) as [c ->]. cbn. rewrite <- IH.
      destruct (map_items item_card_of rest) as [e|cs]; cbn.
      * split; intros [x H]; discriminate H.
      * split; intros _; eexists; reflexivity.
Qed.

(** X2.  The results section (lines 225-302 and 540-617) renders exactly
    when [result] itself is neither null nor undefined, its [items] is an
    array none of whose elements is null or undefined, and its [totals] is
    neither null nor undefined; in every other case rendering ends in an
    exception.  No field of an item or of the totals has to be there:
    missing ones are shown as [undefined]. *)
Theorem results_section_renders_iff_renderable :
  forall d : value,
    ((exists view, results_section d = inr view) <-> renderable d = true) /\
    ((exists e, results_section d = inl e) <-> renderable d = false).
Proof.
  intros d.
  assert (H : (exists view, results_section d = inr view) <-> renderable d = true).
  { unfold renderable, results_section.
    destruct (is_nullish d) eqn:N.
    - destruct (@prop_of_nullish d "timestamp" N) as [e ->]. cbn.
      split; [intros [v H]; discriminate H | discriminate].
    - rewrite !prop_of_present by exact N. cbn [and_then negb andb].
      destruct (opt_prop d "items") as [| | | | |elems|];
        try (cbn; split; [intros [v H]; discriminate H | discriminate]).
      pose proof (map_items_renders elems) as Hm.
      destruct (map_items item_card_of elems) as [e|cs]; cbn [and_then].
      + split; [intros [v H]; discriminate H|].
        intros H. apply andb_true_iff in H as [H _].
        destruct (proj2 Hm H) as [x Hx]. discriminate Hx.
      + rewrite (proj1 Hm (ex_intro _ cs eq_refl)). cbn [andb].
        destruct (is_nullish (opt_prop d "totals")) eqn:T.
        * destruct (@prop_of_nullish (opt_prop d "totals") "total_price" T) as [e ->].
          cbn. split; [intros [v H]; discriminate H | discriminate].
        * rewrite !prop_of_present by exact T. cbn.
          split; [reflexivity | intros _; eexists; reflexivity]. }
  split; [exact H|].
  destruct (results_section d) as [e|view].
  - split; [intros _|intros _; eexists; reflexivity].
    destruct (renderable d); [|reflexivity].
    destruct (proj2 H eq_refl) as [v Hv]. discriminate Hv.
  - split; [intros [e He]; discriminate He|].
    intros Hr. rewrite (proj1 H (ex_intro _ view eq_refl)) in Hr. discriminate Hr.
Qed.


(** X3.  [captureAndAnalyze] checks nothing of a body but that its
    [success] is truthy (lines 90-92 and 417-419).  A body that says
    success and lacks what the results section reads (no [items] array, a
    null item, no [totals]) is stored in [result] all the same; the results
    section is then the one rendered, and rendering it ends in an
    exception.  Both variants. *)
Theorem unvalidated_body_is_stored_and_breaks_the_view :
  forall r : http_response,
    succeeded (data r) = true ->
    renderable (data r) = false ->
    (forall s w,
        ByRef.reply w = Fulfilled r ->
        posts (trace (ByRef.captureAndAnalyze s w)) = true ->
        let s' := ByRef.after s (ByRef.captureAndAnalyze s w) in
        ByRef.result s' = data r /\
        ByRef.rendered s' DownloadBtn = true /\
        exists e, results_section (ByRef.result s') = inl e)
    /\
    (forall s w,
        ById.reply w = Fulfilled r ->
        posts (trace (ById.captureAndAnalyze w)) = true ->
        let s' := ById.after s (ById.captureAndAnalyze w) in
        ById.result s' = data r /\
        ById.rendered s' DownloadBtn = true /\
        exists e, results_section (ById.result s') = inl e).
Proof.
  intros r Hs Hr.
  assert (Ht : truthy (data r) = true).
  { unfold succeeded in Hs. destruct (data r); try discriminate; reflexivity. }
  assert (He : exists e, results_section (data r) = inl e).
  { apply (proj2 (results_section_renders_iff_renderable (data r))). exact Hr. }
  split; intros s w Hw Hp.
  - destruct (byref_success s w Hs Hw Hp) as (R & _).
    cbv zeta. unfold ByRef.rendered. rewrite R. repeat split; assumption.
  - destruct (byid_success s w Hs Hw Hp) as (R & _).
    cbv zeta. unfold ById.rendered. rewrite R. repeat split; assumption.
Qed.

Lemma unvalidated_body_is_stored_and_breaks_the_view_witness :
  let bare := {| status := 200; data := VObj [("success", VBool true)] |} in
  let wr := Sample.ref_world (Some Sample.playing) (inr Sample.webcam)
              (Some Sample.jpeg) (Fulfilled bare) in
  let wi := Sample.id_world (Some Sample.id_playing) (inr Sample.webcam)
              (Some Sample.jpeg) (Fulfilled bare) in
  succeeded (data bare) = true /\ renderable (data bare) = false /\
  ByRef.result (ByRef.after Sample.ref_capturing
                  (ByRef.captureAndAnalyze Sample.ref_capturing wr))
    = VObj [("success", VBool true)] /\
  (exists e, results_section
               (ById.result (ById.after Sample.id_capturing
                               (ById.captureAndAnalyze wi))) = inl e).
Proof.
  intros bare wr wi.
  destruct (unvalidated_body_is_stored_and_breaks_the_view bare eq_refl eq_refl)
    as [Href Hid].
  destruct (Href Sample.ref_capturing wr eq_refl eq_refl) as (R & _).
  destruct (Hid Sample.id_capturing wi eq_refl eq_refl) as (_ & _ & E).
  split; [reflexivity|]. split; [reflexivity|]. split; [exact R | exact E].
Defined.

(** ** More on the download *)

Lemma truthy_is_present (d : value) : truthy d = true -> is_nullish d = false.
Proof. destruct d; try discriminate; reflexivity. Qed.

Lemma byref_download_any (s : ByRef.state) (w : ByRef.world) :
  truthy (ByRef.result s) = true ->
  ByRef.downloadReceipt s w =
  ([Io (CreateObjectURL [opt_prop (ByRef.result s) "receipt_html"] "text/html"
          (ByRef.object_url w));
    Io AppendChild;
    Io (AnchorClick (ByRef.object_url w)
          ("receipt_" ++ decimal (ByRef.now w) ++ ".html"));
    Io RemoveChild;
    Io (RevokeObjectURL (ByRef.object_url w))], inr tt).
Proof.
  intros H. unfold ByRef.downloadReceipt.
  rewrite H, prop_of_present by (apply truthy_is_present; exact H). reflexivity.
Qed.

Lemma byid_download_any (s : ById.state) (w : ById.world) :
  truthy (ById.result s) = true ->
  ById.downloadReceipt s w =
  ([Io (CreateObjectURL [opt_prop (ById.result s) "receipt_html"] "text/html"
          (ById.object_url w));
    Io AppendChild;
    Io (AnchorClick (ById.object_url w)
          ("receipt_" ++ decimal (ById.now w) ++ ".html"));
    Io RemoveChild;
    Io (RevokeObjectURL (ById.object_url w))], inr tt).
Proof.
  intros H. unfold ById.downloadReceipt.
  rewrite H, prop_of_present by (apply truthy_is_present; exact H). reflexivity.
Qed.

(** X4.  [downloadReceipt] does not check that the stored result has a
    receipt (lines 111-113 and 432-434): with a result that has no
    [receipt_html] it still saves one file of type text/html, and the text
    of that file is the word "undefined".  Both variants. *)
Theorem download_without_receipt_saves_undefined :
  (forall s w,
      truthy (ByRef.result s) = true ->
      opt_prop (ByRef.result s) "receipt_html" = VUndefined ->
      exists f,
        saved (calls (trace (ByRef.downloadReceipt s w))) = [f] /\
        file_type f = "text/html" /\
        text_of (file_parts f) = Some "undefined")
  /\
  (forall s w,
      truthy (ById.result s) = true ->
      opt_prop (ById.result s) "receipt_html" = VUndefined ->
      exists f,
        saved (calls (trace (ById.downloadReceipt s w))) = [f] /\
        file_type f = "text/html" /\
        text_of (file_parts f) = Some "undefined").
Proof.
  split; intros s w Ht Hu.
  - rewrite (byref_download_any s w Ht), Hu. cbn [trace fst].
    autorewrite with trace. rewrite saved_by_download.
    eexists. split; [reflexivity|]. split; reflexivity.
  - rewrite (byid_download_any s w Ht), Hu. cbn [trace fst].
    autorewrite with trace. rewrite saved_by_download.
    eexists. split; [reflexivity|]. split; reflexivity.
Qed.

Lemma download_without_receipt_saves_undefined_witness :
  let bare := VObj [("success", VBool true)] in
  let sr := {| ByRef.stream := None; ByRef.capturing := false;
               ByRef.analyzing := false; ByRef.result := bare;
               ByRef.error := VNull |} in
  let si := {| ById.capturing := false; ById.analyzing := false;
               ById.result := bare; ById.error := VNull |} in
  let wr := Sample.ref_world None (inr Sample.webcam) None Sample.ok in
  let wi := Sample.id_world None (inr Sample.webcam) None Sample.ok in
  (exists f, saved (calls (trace (ByRef.downloadReceipt sr wr))) = [f] /\
             text_of (file_parts f) = Some "undefined") /\
  (exists f, saved (calls (trace (ById.downloadReceipt si wi))) = [f] /\
             text_of (file_parts f) = Some "undefined").
Proof.
  intros bare sr si wr wi.
  destruct download_without_receipt_saves_undefined as [Href Hid].
  destruct (Href sr wr eq_refl eq_refl) as (f & F1 & _ & F2).
  destruct (Hid si wi eq_refl eq_refl) as (g & G1 & _ & G2).
  split; [exists f | exists g]; split; assumption.
Defined.

(** X5.  [downloadReceipt] leaves nothing behind (lines 110-122 and
    431-443): in every state, with or without a result, it calls no
    setter, asks for no camera, sends no request, and the object URL it
    creates has been revoked when it returns, so no URL stays registered.
    Both variants. *)
Theorem download_leaves_nothing_behind :
  (forall s w,
      let t := trace (ByRef.downloadReceipt s w) in
      updates t = [] /\ posts t = false /\ asks_camera t = false /\
      stopped t = [] /\ registered_after [] (calls t) = [])
  /\
  (forall s w,
      let t := trace (ById.downloadReceipt s w) in
      updates t = [] /\ posts t = false /\ asks_camera t = false /\
      stopped t = [] /\ registered_after [] (calls t) = []).
Proof.
  split; intros s w.
  - destruct (truthy (ByRef.result s)) eqn:Ht.
    + rewrite (byref_download_any s w Ht). cbn. rewrite String.eqb_refl.
      repeat split.
    + unfold ByRef.downloadReceipt. rewrite Ht. repeat split.
  - destruct (truthy (ById.result s)) eqn:Ht.
    + rewrite (byid_download_any s w Ht). cbn. rewrite String.eqb_refl.
      repeat split.
    + unfold ById.downloadReceipt. rewrite Ht. repeat split.
Qed.


(** ** More on capture and analyze *)

Lemma no_request_among_stops (l : list track) (rest : list io) :
  filter is_post (map TrackStop l ++ rest) = filter is_post rest.
Proof. induction l as [|k l IH]; [reflexivity | exact IH]. Qed.

Lemma no_request_in_stops (l : list track) :
  filter is_post (map TrackStop l) = [].
Proof. induction l as [|k l IH]; [reflexivity | exact IH]. Qed.

Lemma API_URL_not_empty (env : option string) : API_URL env <> "".
Proof.
  unfold API_URL. destruct env as [s|]; [|discriminate].
  destruct (String.eqb_spec s ""); [discriminate | assumption].
Qed.

Ltac no_stops :=
  repeat rewrite <- app_assoc;
  rewrite ?no_request_among_stops, ?no_request_in_stops; cbn [filter is_post app].

Lemma byref_requests (s : ByRef.state) (w : ByRef.world) :
  let t := trace (ByRef.captureAndAnalyze s w) in
  requests t = [] \/
  exists b, ByRef.encoded w = Some b /\ (0 < size b)%nat /\
            requests t =
              [Post (API_URL (ByRef.REACT_APP_API_URL w) ++ "/analyze") "image"
                    "capture.jpg" b "multipart/form-data" 30000].
Proof.
  unfold requests. open_capture. run; replayed.
  all: try (left; reflexivity).
  all: right; eexists; split; [reflexivity|]; split;
       [match goal with H : size _ = S _ |- _ => rewrite H end; lia|].
  all: no_stops; reflexivity.
Qed.

Lemma byid_requests (w : ById.world) :
  let t := trace (ById.captureAndAnalyze w) in
  requests t = [] \/
  exists b, ById.encoded w = Some b /\ (0 < size b)%nat /\
            requests t =
              [Post (API_URL (ById.REACT_APP_API_URL w) ++ "/analyze") "image"
                    "capture.jpg" b "multipart/form-data" 30000].
Proof.
  unfold requests. open_capture. run; replayed.
  all: try (left; reflexivity).
  all: right; eexists; split; [reflexivity|]; split;
       [match goal with H : (size _ =? 0)%nat = false |- _ =>
          apply Nat.eqb_neq in H end; lia|].
  all: no_stops; reflexivity.
Qed.

(** X6.  [captureAndAnalyze] sends at most one request per call, and the
    one it sends is always the same but for its body (lines 80-88 and
    407-415): a POST to the base URL followed by "/analyze", with the
    encoded blob, which is not empty, in the field "image" under the file
    name "capture.jpg", declared as multipart/form-data, with a timeout of
    30000 ms.  The base URL is the build-time variable when that is set
    and not empty, and the fixed public URL otherwise; it is never empty.
    Both variants. *)
Theorem at_most_one_request_of_fixed_shape :
  (forall s w,
      let t := trace (ByRef.captureAndAnalyze s w) in
      requests t = [] \/
      exists b, ByRef.encoded w = Some b /\ (0 < size b)%nat /\
        requests t =
          [Post (API_URL (ByRef.REACT_APP_API_URL w) ++ "/analyze") "image"
                "capture.jpg" b "multipart/form-data" 30000])
  /\
  (forall w,
      let t := trace (ById.captureAndAnalyze w) in
      requests t = [] \/
      exists b, ById.encoded w = Some b /\ (0 < size b)%nat /\
        requests t =
          [Post (API_URL (ById.REACT_APP_API_URL w) ++ "/analyze") "image"
                "capture.jpg" b "multipart/form-data" 30000])
  /\
  (forall env, API_URL env <> "" /\
               (forall u, env = Some u -> u <> "" -> API_URL env = u) /\
               (env = None \/ env = Some "" ->
                API_URL env = "https://food-recognition-backend-rzsl.onrender.com")).
Proof.
  split; [exact byref_requests|]. split; [exact byid_requests|].
  intros env. split; [apply API_URL_not_empty|]. split.
  - intros u -> Hu. unfold API_URL.
    destruct (String.eqb_spec u ""); [contradiction | reflexivity].
  - intros [-> | ->]; reflexivity.
Qed.

Lemma at_most_one_request_of_fixed_shape_witness :
  let wr := Sample.ref_world (Some Sample.playing) (inr Sample.webcam)
              (Some Sample.jpeg) Sample.ok in
  requests (trace (ByRef.captureAndAnalyze Sample.ref_capturing wr)) =
    [Post "https://food-recognition-backend-rzsl.onrender.com/analyze" "image"
          "capture.jpg" Sample.jpeg "multipart/form-data" 30000] /\
  API_URL (Some "http://localhost:5000") = "http://localhost:5000" /\
  API_URL (Some "") = "https://food-recognition-backend-rzsl.onrender.com".
Proof.
  intros wr.
  destruct at_most_one_request_of_fixed_shape as (Href & _ & Hurl).
  split.
  - destruct (Href Sample.ref_capturing wr) as [E|(b & [= <-] & _ & E)].
    + discriminate E.
    + exact E.
  - destruct (Hurl (Some "http://localhost:5000")) as (_ & U & _).
    destruct (Hurl (Some "")) as (_ & _ & D).
    split; [apply (U _ eq_refl); discriminate | apply D; right; reflexivity].
Defined.






(** X8.  The ref variant refuses a video without dimensions (lines
    384-389): past the two guards, when the video's width or height is
    zero, [captureAndAnalyze] resizes the canvas and stops there.  It ends
    with "Invalid video dimensions" in [error], with [result] null,
    [analyzing] false, [capturing] and [stream] as they were; nothing is
    drawn, encoded or sent. *)
Theorem zero_dimensions_fail_before_encoding :
  forall (s : ByRef.state) (w : ByRef.world) (v : ByRef.video),
    ByRef.videoRef w = Some v ->
    ByRef.canvasRef w = true ->
    ByRef.readyState v = HAVE_ENOUGH_DATA ->
    (ByRef.videoWidth v = 0 \/ ByRef.videoHeight v = 0)%Z ->
    let t := trace (ByRef.captureAndAnalyze s w) in
    let s' := ByRef.after s (ByRef.captureAndAnalyze s w) in
    calls t = [CanvasSize (ByRef.videoWidth v) (ByRef.videoHeight v);
               ConsoleError "Analysis error:"] /\
    ByRef.error s' = VStr "Invalid video dimensions" /\
    ByRef.result s' = VNull /\ ByRef.analyzing s' = false /\
    ByRef.capturing s' = ByRef.capturing s /\
    ByRef.stream s' = ByRef.stream s.
Proof.
  intros s w v Hv Hc Hr Hd. unfold ByRef.after, ByRef.captureAndAnalyze.
  rewrite Hv, Hc, Hr. cbn [Z.eqb HAVE_ENOUGH_DATA Pos.eqb negb].
  assert (E : ((ByRef.videoWidth v =? 0) || (ByRef.videoHeight v =? 0))%Z = true).
  { apply orb_true_iff. destruct Hd as [H|H]; [left|right]; apply Z.eqb_eq; exact H. }
  cbv zeta. rewrite E. replayed. repeat split.
Qed.

Lemma zero_dimensions_fail_before_encoding_witness :
  let flat := {| ByRef.readyState := 4; ByRef.videoWidth := 1280;
                 ByRef.videoHeight := 0 |} in
  let w := Sample.ref_world (Some flat) (inr Sample.webcam)
             (Some Sample.jpeg) Sample.ok in
  ByRef.error (ByRef.after Sample.ref_capturing
                 (ByRef.captureAndAnalyze Sample.ref_capturing w))
    = VStr "Invalid video dimensions" /\
  calls (trace (ByRef.captureAndAnalyze Sample.ref_capturing w))
    = [CanvasSize 1280 0; ConsoleError "Analysis error:"].
Proof.
  intros flat w.
  destruct (@zero_dimensions_fail_before_encoding Sample.ref_capturing w flat
              eq_refl eq_refl eq_refl (or_intror eq_refl)) as (C & E & _).
  split; [exact E | exact C].
Defined.

(** X9.  The id variant looks its two elements up by id and does not check
    what it finds (lines 52-54, 60-66, 104-107).  Without a canvas
    element the handler ends in an uncaught exception before it has done
    anything: no setter is called, nothing is asked of the browser.  With
    a canvas and without a video element the handler has already set
    [analyzing] and cleared [error] and [result] when the read of the
    video's width throws; the [catch] then puts the exception's message
    in [error] and sets [analyzing] back to false, and the browser has not
    been asked for anything. *)
Theorem missing_elements_in_id_variant :
  (forall w,
      ById.canvas w = false ->
      exists e, ById.captureAndAnalyze w = ([], inl e))
  /\
  (forall s w,
      ById.canvas w = true -> ById.video w = None ->
      let t := trace (ById.captureAndAnalyze w) in
      let s' := ById.after s (ById.captureAndAnalyze w) in
      calls t = [] /\
      (exists msg, updates t =
         [ById.SetAnalyzing true; ById.SetError VNull; ById.SetResult VNull;
          ById.SetError (VStr msg); ById.SetAnalyzing false] /\ msg <> "") /\
      is_message (ById.error s') = true /\ ById.result s' = VNull /\
      ById.analyzing s' = false /\ ById.capturing s' = ById.capturing s).
Proof.
  split.
  - intros w Hc. unfold ById.captureAndAnalyze. rewrite Hc. eexists. reflexivity.
  - intros s w Hc Hv. unfold ById.after, ById.captureAndAnalyze.
    rewrite Hc, Hv. cbn. repeat split.
    eexists. split; [reflexivity | discriminate].
Qed.

Lemma missing_elements_in_id_variant_witness :
  let w := Sample.id_world None (inr Sample.webcam) (Some Sample.jpeg) Sample.ok in
  ById.result (ById.after Sample.id_showing (ById.captureAndAnalyze w)) = VNull /\
  calls (trace (ById.captureAndAnalyze w)) = [].
Proof.
  intros w.
  destruct missing_elements_in_id_variant as [_ H].
  destruct (H Sample.id_showing w eq_refl eq_refl) as (C & _ & _ & R & _).
  split; [exact R | exact C].
Defined.

(** X10.  When a submission starts.  The ref variant calls
    [setAnalyzing(true)] exactly when both refs are set and the video's
    ready state is [HAVE_ENOUGH_DATA] (lines 365-378): a video that has
    buffered a frame but not enough data (ready state 2 or 3) is refused
    like one that has buffered nothing, with a single [setError].  The id
    variant calls it exactly when the canvas element exists (lines
    53-56). *)
Theorem submission_starts_iff_ready :
  (forall s w,
      let t := trace (ByRef.captureAndAnalyze s w) in
      (In (ByRef.SetAnalyzing true) (updates t) <-> ref_ready w = true) /\
      (ref_ready w = false ->
       exists msg, t = [Upd (ByRef.SetError (VStr msg))] /\ msg <> ""))
  /\
  (forall w,
      let t := trace (ById.captureAndAnalyze w) in
      (In (ById.SetAnalyzing true) (updates t) <-> ById.canvas w = true) /\
      (ById.canvas w = false -> t = [])).
Proof.
  split.
  - intros s w t. subst t. destruct (ref_ready w) eqn:R.
    + split; [|discriminate]. split; [reflexivity|]. intros _.
      destruct (byref_submission_clears_first s w R) as ((rest & ->) & _).
      left. reflexivity.
    + rewrite (byref_guard s w R). split.
      * split; [|discriminate]. intros [E|[]]. discriminate E.
      * intros _. eexists. split; [reflexivity|].
        destruct (ByRef.videoRef w), (ByRef.canvasRef w); discriminate.
  - intros w t. subst t. destruct (ById.canvas w) eqn:C.
    + split; [|discriminate]. split; [reflexivity|]. intros _.
      destruct (byid_submission_clears_first ById.initial w C) as ((rest & ->) & _).
      left. reflexivity.
    + unfold ById.captureAndAnalyze. rewrite C. cbn.
      split; [|reflexivity]. split; [intros [] | discriminate].
Qed.

Lemma submission_starts_iff_ready_witness :
  let half := {| ByRef.readyState := 3; ByRef.videoWidth := 1280;
                 ByRef.videoHeight := 720 |} in
  let w := Sample.ref_world (Some half) (inr Sample.webcam)
             (Some Sample.jpeg) Sample.ok in
  ref_has_frame w = true /\ ref_ready w = false /\
  trace (ByRef.captureAndAnalyze Sample.ref_capturing w)
    = [Upd (ByRef.SetError (VStr "Video not ready. Please wait a moment."))].
Proof.
  intros half w.
  destruct submission_starts_iff_ready as [Href _].
  destruct (Href Sample.ref_capturing w) as (_ & G).
  destruct (G eq_refl) as (msg & E & _).
  split; [reflexivity|]. split; [reflexivity|].
  rewrite E. cbn in E. injection E as <-. reflexivity.
Defined.

Lemma byref_rejected_state (s : ByRef.state) (w : ByRef.world) (err : js_error) :
  ByRef.reply w = Rejected err ->
  posts (trace (ByRef.captureAndAnalyze s w)) = true ->
  let s' := ByRef.after s (ByRef.captureAndAnalyze s w) in
  ByRef.result s' = VNull /\ ByRef.analyzing s' = false /\
  ByRef.capturing s' = ByRef.capturing s /\
  ByRef.stream s' = ByRef.stream s.
Proof.
  intros Hr. open_capture. rewrite Hr.
  run; replayed; intros _; repeat split.
Qed.

(** X11.  What the ref variant shows for a rejected request (line 424):
    the first of these that is truthy, in this order: the error's own
    message, the [error] field of the response body, "Failed to analyze.
    Please try again.".  So whenever the error has a message of its own,
    as the errors axios raises have, that message is shown and the one
    the server sent is not.  The handler ends with [result] null,
    [analyzing] false and [capturing] and [stream] as they were. *)
Theorem ref_variant_prefers_the_errors_own_message :
  forall (err : js_error) (s : ByRef.state) (w : ByRef.world),
    ByRef.reply w = Rejected err ->
    posts (trace (ByRef.captureAndAnalyze s w)) = true ->
    let s' := ByRef.after s (ByRef.captureAndAnalyze s w) in
    let supplied := err_response_data_error err in
    ByRef.error s' =
      (if negb (message err =? "") then VStr (message err)
       else if truthy supplied then supplied
       else VStr "Failed to analyze. Please try again.") /\
    truthy (ByRef.error s') = true /\
    ByRef.result s' = VNull /\ ByRef.analyzing s' = false /\
    ByRef.capturing s' = ByRef.capturing s /\
    ByRef.stream s' = ByRef.stream s.
Proof.
  intros err s w Hr Hp s' supplied. subst s' supplied.
  rewrite (byref_rejected s w Hr Hp).
  split; [reflexivity|]. split; [|exact (byref_rejected_state s w Hr Hp)].
  unfold or_else, err_message. cbn [truthy].
  destruct (message err =? "") eqn:M; cbn [negb truthy].
  - destruct (truthy (err_response_data_error err)) eqn:T; [exact T | reflexivity].
  - rewrite M. reflexivity.
Qed.

Lemma ref_variant_prefers_the_errors_own_message_witness :
  let w := Sample.ref_world (Some Sample.playing) (inr Sample.webcam)
             (Some Sample.jpeg) Sample.server_error in
  Sample.server_error =
    Rejected {| message := "Request failed with status code 500";
                response := Some {| status := 500;
                                    data := VObj [("error", VStr "Model unavailable")] |} |} /\
  ByRef.error (ByRef.after Sample.ref_capturing
                 (ByRef.captureAndAnalyze Sample.ref_capturing w))
    = VStr "Request failed with status code 500".
Proof.
  intros w. split; [reflexivity|].
  destruct (@ref_variant_prefers_the_errors_own_message _ Sample.ref_capturing w
              eq_refl eq_refl) as (E & _).
  exact E.
Defined.


(** ** More on the camera *)

Lemma stopped_of_stops (l : list track) (rest : list io) :
  flat_map (fun e => match e with TrackStop k => [k] | _ => [] end)
           (map TrackStop l ++ rest)
  = l ++ flat_map (fun e => match e with TrackStop k => [k] | _ => [] end) rest.
Proof.
  induction l as [|k l IH]; [reflexivity|]. cbn. rewrite IH. reflexivity.
Qed.

Lemma stopped_of_stops_only (l : list track) :
  flat_map (fun e => match e with TrackStop k => [k] | _ => [] end)
           (map TrackStop l) = l.
Proof.
  rewrite <- (app_nil_r (map TrackStop l)), stopped_of_stops. cbn.
  apply app_nil_r.
Qed.

Lemma no_camera_among_stops (l : list track) (rest : list io) :
  existsb (fun e => match e with GetUserMedia _ => true | _ => false end)
          (map TrackStop l ++ rest)
  = existsb (fun e => match e with GetUserMedia _ => true | _ => false end) rest.
Proof. induction l as [|k l IH]; [reflexivity | exact IH]. Qed.

Lemma no_camera_in_stops (l : list track) :
  existsb (fun e => match e with GetUserMedia _ => true | _ => false end)
          (map TrackStop l) = false.
Proof. induction l as [|k l IH]; [reflexivity | exact IH]. Qed.

Ltac read_calls :=
  unfold stopped, asks_camera, requests in *; replayed;
  repeat rewrite <- app_assoc;
  rewrite ?stopped_of_stops, ?stopped_of_stops_only, ?no_camera_among_stops,
    ?no_camera_in_stops, ?no_request_among_stops, ?no_request_in_stops;
  cbn [flat_map existsb filter is_post app orb].

(** X12.  A granted camera.  In the ref variant (lines 339-349) a grant
    stores the stream in [stream], sets [capturing] and leaves [error]
    null; the stream is bound to the video element only if that element
    is mounted when the grant arrives, and the one request made asks for
    video of 1280 by 720.  In the id variant (lines 13-27, 38-41) the
    effect asks for video without audio; with the video element mounted a
    grant binds and plays the stream and [capturing] stays true; with no
    video element the grant is answered like a refusal: the camera error
    is set, [capturing] goes back to false, and no track of the granted
    stream is stopped. *)
Theorem granted_camera :
  (forall s w ms,
      ByRef.mediaDevices w = true -> ByRef.camera w = inr ms ->
      let t := trace (ByRef.startCamera w) in
      let s' := ByRef.after s (ByRef.startCamera w) in
      ByRef.stream s' = Some ms /\ ByRef.capturing s' = true /\
      ByRef.error s' = VNull /\ ByRef.result s' = ByRef.result s /\
      ByRef.analyzing s' = ByRef.analyzing s /\
      calls t = GetUserMedia {| video_size := Some (1280, 720)%Z; audio := None |}
                :: match ByRef.videoRef w with
                   | Some _ => [SetSrcObject ms]
                   | None => []
                   end)
  /\
  (forall s w ms,
      ById.capturing s = false ->
      ById.mediaDevices w = true -> ById.camera w = inr ms ->
      let t := ById.startCapture s w in
      let s' := replay ById.apply s t in
      ById.result s' = ById.result s /\ ById.analyzing s' = ById.analyzing s /\
      stopped t = [] /\
      match ById.video w with
      | Some _ =>
          ById.capturing s' = true /\ ById.error s' = VNull /\
          calls t = [GetUserMedia {| video_size := None; audio := Some false |};
                     SetSrcObject ms; VideoPlay]
      | None =>
          ById.capturing s' = false /\
          ById.error s' = VStr camera_denied_msg /\
          calls t = [GetUserMedia {| video_size := None; audio := Some false |};
                     ConsoleError "Camera error:"]
      end).
Proof.
  split.
  - intros s w ms Hm Hc. unfold ByRef.after, ByRef.startCamera.
    rewrite Hm, Hc. destruct (ByRef.videoRef w); cbn; repeat split.
  - intros s w ms Hs Hm Hc. open_episode. rewrite Hs, Hm, Hc.
    destruct (ById.video w) as [v|]; read_calls; repeat split.
Qed.

Lemma granted_camera_witness :
  let wr := Sample.ref_world None (inr Sample.webcam) None Sample.ok in
  let wi := Sample.id_world None (inr Sample.webcam) None Sample.ok in
  ByRef.stream (ByRef.after ByRef.initial (ByRef.startCamera wr))
    = Some Sample.webcam /\
  calls (trace (ByRef.startCamera wr))
    = [GetUserMedia {| video_size := Some (1280, 720)%Z; audio := None |}] /\
  ById.capturing (replay ById.apply ById.initial
                    (ById.startCapture ById.initial wi)) = false /\
  ById.error (replay ById.apply ById.initial
                (ById.startCapture ById.initial wi)) = VStr camera_denied_msg.
Proof.
  intros wr wi.
  destruct granted_camera as [Href Hid].
  destruct (Href ByRef.initial wr Sample.webcam eq_refl eq_refl)
    as (S & _ & _ & _ & _ & C).
  destruct (Hid ById.initial wi Sample.webcam eq_refl eq_refl eq_refl)
    as (_ & _ & _ & I).
  cbn [ById.video Sample.id_world] in I. destruct I as (I1 & I2 & _).
  split; [exact S|]. split; [exact C|]. split; [exact I1 | exact I2].
Defined.

(** X13.  "New Scan" (lines 296 and 611) is [reset] followed by
    [startCamera], and the result is given up before the camera is
    there.  With the camera granted the component ends in capture mode
    with [result] and [error] null.  With the camera refused it ends with
    neither: [result] is null, [capturing] is false and the camera error
    is shown.  Both variants, from a state that shows a result. *)
Theorem new_scan_discards_result_before_camera :
  (forall s w,
      ByRef.capturing s = false ->
      let s' := ByRef.click s NewScanBtn w in
      ByRef.result s' = VNull /\
      (refused (ByRef.mediaDevices w) (ByRef.camera w) = true ->
       ByRef.capturing s' = false /\ ByRef.error s' = VStr camera_denied_msg) /\
      (forall ms, ByRef.mediaDevices w = true -> ByRef.camera w = inr ms ->
       ByRef.capturing s' = true /\ ByRef.stream s' = Some ms /\
       ByRef.error s' = VNull))
  /\
  (forall s w,
      ById.capturing s = false -> ById.mediaDevices w = true ->
      let s' := ById.click s NewScanBtn w in
      ById.result s' = VNull /\
      (forall err, ById.camera w = inl err ->
       ById.capturing s' = false /\ ById.error s' = VStr camera_denied_msg) /\
      (forall ms v, ById.camera w = inr ms -> ById.video w = Some v ->
       ById.capturing s' = true /\ ById.error s' = VNull)).
Proof.
  split.
  - intros s w Hs. destruct s; cbn in Hs; subst. open_episode.
    run_through; repeat split; try discriminate; intros; try discriminate;
      repeat split;
      match goal with H : inr _ = inr _ |- _ => injection H as <- end;
      reflexivity.
  - intros s w Hs Hm. open_episode. rewrite Hs, Hm.
    run_through; repeat split; intros; try discriminate; repeat split.
Qed.

Lemma new_scan_discards_result_before_camera_witness :
  let wr := Sample.ref_world None (inl Sample.denied) None Sample.ok in
  let wi := Sample.id_world (Some Sample.id_blank) (inl Sample.denied)
              None Sample.ok in
  ByRef.clickable Sample.ref_showing NewScanBtn = true /\
  ByRef.result Sample.ref_showing = Sample.analysis /\
  ByRef.result (ByRef.click Sample.ref_showing NewScanBtn wr) = VNull /\
  ByRef.capturing (ByRef.click Sample.ref_showing NewScanBtn wr) = false /\
  ById.result (ById.click Sample.id_showing NewScanBtn wi) = VNull /\
  ById.capturing (ById.click Sample.id_showing NewScanBtn wi) = false.
Proof.
  intros wr wi.
  destruct new_scan_discards_result_before_camera as [Href Hid].
  destruct (Href Sample.ref_showing wr eq_refl) as (R & F & _).
  destruct (F eq_refl) as (C & _).
  destruct (Hid Sample.id_showing wi eq_refl eq_refl) as (R' & F' & _).
  destruct (F' Sample.denied eq_refl) as (C' & _).
  split; [reflexivity|]. split; [reflexivity|]. split; [exact R|].
  split; [exact C|]. split; [exact R' | exact C'].
Defined.


Ltac conj := repeat match goal with |- _ /\ _ => split end.

(** X14.  "Cancel" (lines 43-49, 210 and 356-362, 525, with the cleanups
    of lines 30-34 and 331-337).  The click ends capture mode, empties
    [stream] in the ref variant, and leaves [result], [error] and
    [analyzing] as they were.  The tracks it stops are those of the held
    stream (ref variant) or of the video element's stream (id variant),
    and no others; it sends no request and does not ask for the camera.
    In the ref variant stopping again touches nothing. *)
Theorem cancel_releases_the_camera :
  (forall s w,
      let t := ByRef.episode s CancelBtn w in
      let s' := ByRef.click s CancelBtn w in
      ByRef.capturing s' = false /\ ByRef.stream s' = None /\
      ByRef.result s' = ByRef.result s /\ ByRef.error s' = ByRef.error s /\
      ByRef.analyzing s' = ByRef.analyzing s /\
      (forall k, In k (stopped t) <->
                 exists ms, ByRef.stream s = Some ms /\ In k (tracks ms)) /\
      requests t = [] /\ asks_camera t = false /\
      calls (trace (ByRef.stopCamera s')) = [])
  /\
  (forall s w,
      let t := ById.episode s CancelBtn w in
      let s' := ById.click s CancelBtn w in
      ById.capturing s' = false /\
      ById.result s' = ById.result s /\ ById.error s' = ById.error s /\
      ById.analyzing s' = ById.analyzing s /\
      (forall k, In k (stopped t) <->
                 exists v ms, ById.video w = Some v /\
                              ById.srcObject v = Some ms /\ In k (tracks ms)) /\
      requests t = [] /\ asks_camera t = false).
Proof.
  split.
  - intros [str cap ana res err] w. open_episode.
    cbn [ByRef.stream ByRef.capturing].
    destruct str as [ms|]; read_calls; conj; try reflexivity.
    + intros k. rewrite in_app_iff. split.
      * intros Hk. exists ms. split; [reflexivity | tauto].
      * intros (m & [= <-] & Hk). left. exact Hk.
    + intros k. split; [intros [] | intros (m & [=] & _)].
  - intros [cap ana res err] w. open_episode. cbn [ById.capturing].
    destruct (ById.video w) as [v|];
      [destruct (ById.srcObject v) as [ms|] eqn:Es|];
      destruct cap; read_calls; conj; try reflexivity.
    all: intros k; rewrite ?in_app_iff; split;
      [ intros Hk; try (exists v, ms; repeat split; tauto); tauto
      | intros (v' & m & Hv & Hm & Hk); try discriminate Hv;
        injection Hv as <-; rewrite Es in Hm; try discriminate Hm;
        injection Hm as <-; tauto ].
Qed.

Lemma cancel_releases_the_camera_witness :
  let w := Sample.ref_world (Some Sample.playing) (inr Sample.webcam)
             None Sample.ok in
  ByRef.clickable Sample.ref_capturing CancelBtn = true /\
  ByRef.capturing (ByRef.click Sample.ref_capturing CancelBtn w) = false /\
  ByRef.stream (ByRef.click Sample.ref_capturing CancelBtn w) = None /\
  forall k, In k (tracks Sample.webcam) ->
            In k (stopped (ByRef.episode Sample.ref_capturing CancelBtn w)).
Proof.
  intros w.
  destruct cancel_releases_the_camera as [Href _].
  destruct (Href Sample.ref_capturing w) as (C & S & _ & _ & _ & K & _).
  split; [reflexivity|]. split; [exact C|]. split; [exact S|].
  intros k Hk. apply K. exists Sample.webcam. split; [reflexivity | exact Hk].
Defined.


(** ** What every state holds *)

Lemma truthy_or_else_right (a b : value) :
  truthy b = true -> truthy (or_else a b) = true.
Proof.
  intros Hb. unfold or_else. destruct (truthy a) eqn:Ha; assumption.
Qed.

Lemma succeeded_of_success (d v : value) :
  prop d "success" = inr v -> truthy v = true -> succeeded d = true.
Proof. intros Hp Hv. unfold succeeded. rewrite Hp. exact Hv. Qed.

Ltac values_hold :=
  first
    [ left; reflexivity
    | assumption
    | right; reflexivity
    | right; eapply succeeded_of_success; eassumption
    | right; repeat (apply truthy_or_else_right); reflexivity ].

Ltac open_handlers :=
  unfold ByRef.after, ById.after, ByRef.onClick, ById.onClick,
    ByRef.captureAndAnalyze, ById.captureAndAnalyze, ById.onBlob,
    ByRef.toBlob_promise, ByRef.axios_post, ById.axios_post,
    ByRef.startCamera, ById.startCamera, ByRef.reset, ById.reset,
    ByRef.downloadReceipt, ById.downloadReceipt in *;
  rewrite ?byref_stopCamera_eq, ?byid_stopCamera_eq in *.

Lemma byref_handler_keeps (s : ByRef.state) (b : button) (w : ByRef.world) :
  stream_held s = ByRef.capturing s -> ref_values_ok s ->
  (stream_held (ByRef.after s (ByRef.onClick s b w))
     = ByRef.capturing (ByRef.after s (ByRef.onClick s b w)) /\
   ref_values_ok (ByRef.after s (ByRef.onClick s b w))) /\
  forall p st,
    In (p, st) (suspended_in ByRef.apply s (trace (ByRef.onClick s b w))) ->
    stream_held st = ByRef.capturing st /\ ref_values_ok st.
Proof.
  destruct s as [str cap ana res err].
  unfold ref_values_ok, stream_held.
  cbn [ByRef.stream ByRef.capturing ByRef.result ByRef.error].
  intros Hs [Hr He].
  destruct b; open_handlers; cbn [ByRef.stream ByRef.result].
  all: run_through.
  all: (split; [|suspended_cases]).
  all: cbn; repeat split; try exact Hs; try reflexivity; values_hold.
Qed.

Lemma byref_episode_keeps (s : ByRef.state) (b : button) (w : ByRef.world) :
  stream_held s = ByRef.capturing s -> ref_values_ok s ->
  (stream_held (ByRef.click s b w) = ByRef.capturing (ByRef.click s b w) /\
   ref_values_ok (ByRef.click s b w)) /\
  forall p st,
    In (p, st) (suspended_in ByRef.apply s (ByRef.episode s b w)) ->
    stream_held st = ByRef.capturing st /\ ref_values_ok st.
Proof.
  intros Hs Hv. destruct (@byref_handler_keeps s b w Hs Hv) as [H1 H2].
  unfold ByRef.click, ByRef.episode, ByRef.after in *.
  set (t1 := trace (ByRef.onClick s b w)) in *.
  destruct (byref_rerender_quiet s (replay ByRef.apply s t1)) as [U Q].
  set (s1 := replay ByRef.apply s t1) in *.
  assert (E : replay ByRef.apply s1 (trace (ByRef.rerender s s1)) = s1).
  { unfold replay at 1. rewrite U. reflexivity. }
  rewrite replay_app, suspended_in_app, Q, app_nil_r. fold s1. rewrite E.
  split; [exact H1 | exact H2].
Qed.

Lemma byref_reachable_keeps (p : option pending) (s : ByRef.state) :
  ByRef.reachable p s -> stream_held s = ByRef.capturing s /\ ref_values_ok s.
Proof.
  induction 1 as [|s b w _ [IH1 IH2] Hc|s b w p s' _ [IH1 IH2] Hc Hin].
  - split; [reflexivity|]. split; left; reflexivity.
  - exact (proj1 (@byref_episode_keeps s b w IH1 IH2)).
  - exact (proj2 (@byref_episode_keeps s b w IH1 IH2) p s' Hin).
Qed.





(** X15.  In the ref variant the [stream] cell is filled exactly in
    capture mode, in every state the component goes through: a stream is
    stored together with [capturing] true (lines 345-347) and given up
    together with [capturing] false (lines 357-361), so no stream is held
    when the camera view is not shown. *)
Theorem stream_is_held_exactly_in_capture_mode (p : option pending)
    (s : ByRef.state) :
  ByRef.reachable p s -> stream_held s = ByRef.capturing s.
Proof. intros Hr. exact (proj1 (byref_reachable_keeps Hr)). Qed.

Lemma stream_is_held_exactly_in_capture_mode_witness :
  let grant := Sample.ref_world None (inr Sample.webcam) None Sample.ok in
  let s1 := ByRef.click ByRef.initial StartCameraBtn grant in
  let s2 := ByRef.click s1 CancelBtn grant in
  (stream_held s1 = true /\ ByRef.capturing s1 = true) /\
  (stream_held s2 = ByRef.capturing s2 /\ ByRef.capturing s2 = false).
Proof.
  intros grant s1 s2.
  assert (R1 : ByRef.reachable None s1).
  { apply ByRef.reach_click; [apply ByRef.reach_initial | reflexivity]. }
  assert (R2 : ByRef.reachable None s2).
  { apply ByRef.reach_click; [exact R1 | reflexivity]. }
  split; [split; reflexivity|].
  split; [exact (stream_is_held_exactly_in_capture_mode R2) | reflexivity].
Defined.






(** ** Which button reaches the network and the camera *)

Lemma asks_camera_app {U} (t1 t2 : list (event U)) :
  asks_camera (t1 ++ t2) = asks_camera t1 || asks_camera t2.
Proof. unfold asks_camera. rewrite calls_app. apply existsb_app. Qed.

(** A submission neither asks for the camera nor turns capture mode on. *)
Lemma byid_capture_leaves_camera (s : ById.state) (w : ById.world) :
  asks_camera (trace (ById.captureAndAnalyze w)) = false /\
  (ById.capturing (ById.after s (ById.captureAndAnalyze w)) = true ->
   ById.capturing s = true).
Proof.
  destruct s as [cap ana res err]. open_capture.
  run_through; read_calls; split; try reflexivity; try discriminate;
    intros H; exact H.
Qed.

(** A render asks for the camera only when [capturing] has just turned
    true; otherwise it changes no state either. *)
Lemma byid_rerender_leaves_camera (s0 s1 : ById.state) (w : ById.world) :
  ById.capturing s0 = true \/ ById.capturing s1 = false ->
  asks_camera (trace (ById.rerender s0 s1 w)) = false /\
  replay ById.apply s1 (trace (ById.rerender s0 s1 w)) = s1.
Proof.
  destruct s0 as [cap0 ana0 res0 err0], s1 as [cap1 ana1 res1 err1].
  cbn [ById.capturing]. unfold ById.rerender, ById.cameraEffect.
  rewrite byid_cameraCleanup_eq. cbn [ById.capturing].
  intros [-> | ->]; [destruct cap1 | destruct cap0]; run_through; read_calls;
    split; reflexivity.
Qed.

(** X18.  Which button reaches the network and the camera.  Only
    the capture button sends a request or encodes a frame; only "Start
    Camera" and "New Scan" ask for the camera.  Whatever the state and
    the environment, a click on any other button does neither, the
    renders and effects it triggers included.  Both variants. *)
Theorem only_capture_posts_only_start_asks :
  (forall s b w,
      let t := ByRef.episode s b w in
      (b <> CaptureBtn -> requests t = [] /\ encodes t = false) /\
      (b <> StartCameraBtn -> b <> NewScanBtn -> asks_camera t = false))
  /\
  (forall s b w,
      let t := ById.episode s b w in
      (b <> CaptureBtn -> requests t = [] /\ encodes t = false) /\
      (b <> StartCameraBtn -> b <> NewScanBtn -> asks_camera t = false)).
Proof.
  split.
  - intros [str cap ana res err] b w.
    destruct b; cbv zeta; (split; [intros Hb | intros Hb Hb']);
      try (exfalso; congruence).
    all: open_episode; unfold ByRef.downloadReceipt; open_capture.
    all: cbn [ByRef.stream ByRef.result ByRef.capturing].
    all: run_through; read_calls; repeat split.
  - intros s b w. cbv zeta. split; [intros Hb | intros Hb Hb'].
    + destruct s as [cap ana res err].
      destruct b; try (exfalso; congruence).
      all: open_episode; unfold ById.downloadReceipt.
      all: cbn [ById.result ById.capturing].
      all: run_through; read_calls; repeat split.
    + destruct b; try (exfalso; congruence).
      * unfold ById.episode. cbn [ById.onClick].
        set (t1 := trace (ById.captureAndAnalyze w)).
        set (s1 := replay ById.apply s t1).
        destruct (byid_capture_leaves_camera s w) as [A1 C1].
        fold t1 in A1. unfold ById.after in C1. fold t1 s1 in C1.
        assert (D : ById.capturing s = true \/ ById.capturing s1 = false).
        { destruct (ById.capturing s1); [left; exact (C1 eq_refl) | right; reflexivity]. }
        destruct (@byid_rerender_leaves_camera s s1 w D) as [A2 E2].
        rewrite E2.
        assert (D' : ById.capturing s1 = true \/ ById.capturing s1 = false).
        { destruct (ById.capturing s1); [left | right]; reflexivity. }
        destruct (@byid_rerender_leaves_camera s1 s1 w D') as [A3 _].
        rewrite !asks_camera_app, A1, A2, A3. reflexivity.
      * destruct s as [cap ana res err]. open_episode.
        cbn [ById.capturing]. run_through; read_calls; repeat split.
      * destruct s as [cap ana res err]. open_episode.
        cbn [ById.capturing]. run_through; read_calls; repeat split.
      * destruct s as [cap ana res err]. open_episode.
        unfold ById.downloadReceipt.
        cbn [ById.result ById.capturing]. run_through; read_calls; repeat split.
Qed.

Lemma only_capture_posts_only_start_asks_witness :
  let w := Sample.ref_world (Some Sample.playing) (inr Sample.webcam)
             (Some Sample.jpeg) Sample.ok in
  requests (ByRef.episode Sample.ref_showing NewScanBtn w) = [] /\
  asks_camera (ByRef.episode Sample.ref_showing NewScanBtn w) = true /\
  asks_camera (ByRef.episode Sample.ref_capturing CaptureBtn w) = false /\
  posts (ByRef.episode Sample.ref_capturing CaptureBtn w) = true.
Proof.
  intros w.
  destruct only_capture_posts_only_start_asks as [Href _].
  destruct (Href Sample.ref_showing NewScanBtn w) as [P _].
  destruct (Href Sample.ref_capturing CaptureBtn w) as [_ A].
  assert (N : NewScanBtn <> CaptureBtn) by discriminate.
  assert (N1 : CaptureBtn <> StartCameraBtn) by discriminate.
  assert (N2 : CaptureBtn <> NewScanBtn) by discriminate.
  split; [exact (proj1 (P N))|]. split; [reflexivity|].
  split; [exact (A N1 N2) | reflexivity].
Defined.
